(** * Speech synthesis service: container framing, stream composition,
      sample conversion, provider adapters and the selector.

    A shallow embedding of [speech.ts] (the speech service of the node
    plugin) and the properties its design document states about it. *)

From Stdlib Require Import ZArith List String Ascii Bool Lia.
From Stdlib Require Import Strings.Byte Numbers.DecimalString Numbers.DecimalN.
From Stdlib Require Import Floats.SpecFloat.
Import ListNotations.

Local Open Scope string_scope.
Local Open Scope Z_scope.

(* ================================================================== *)
(** ** JavaScript values the service manipulates *)
(* ================================================================== *)

Module Js.

(** A setting or an optional property: [None] is [null]/[undefined]. *)
Definition value := option string.

(** [!!v]: [null], [undefined] and the empty string are falsy. *)
Definition truthy (v : value) : bool :=
  match v with
  | Some s => negb (String.eqb s "")
  | None => false
  end.

(** [a || b]. *)
Definition or (a b : value) : value :=
  if truthy a then a else b.

(** [a || "literal"]. *)
Definition or_default (a : value) (d : string) : string :=
  match a with
  | Some s => if String.eqb s "" then d else s
  | None => d
  end.

(** [`${v}`] inside a template literal. *)
Definition template (v : value) : string :=
  match v with
  | Some s => s
  | None => "null"
  end.

(** A JavaScript number as far as the service needs one: an integer
    of magnitude at most 2^53, which a double holds exactly; [NaN]
    (what [parseInt] answers when it finds no digit); or [Big], the
    double nearest to an integer beyond 2^53 in magnitude, or an
    infinity: a number of magnitude at least 2^53, of which nothing
    else matters here. *)
Inductive number :=
| Int (z : Z)
| NaN
| Big.

(** The number for an integer given by its digits. *)
Definition of_integer (z : Z) : number :=
  if Z.abs z <=? 2 ^ 53 then Int z else Big.

(** [s.substring(n)]: the characters from index [n] to the end. *)
Definition substring_from (n : nat) (s : string) : string :=
  String.substring n (String.length s - n) s.

(** [s.startsWith(p)]. *)
Definition startsWith (s p : string) : bool := String.prefix p s.

(** White space that [parseInt] skips (the ASCII part of it). *)
Definition is_space (c : ascii) : bool :=
  let n := nat_of_ascii c in
  orb (Nat.eqb n 32) (andb (Nat.leb 9 n) (Nat.leb n 13)).

Fixpoint skip_spaces (s : string) : string :=
  match s with
  | String c r => if is_space c then skip_spaces r else s
  | EmptyString => s
  end.

(** The value of a digit in the given radix, if it is one. *)
Definition digit_value (radix : Z) (c : ascii) : option Z :=
  let n := Z.of_nat (nat_of_ascii c) in
  let v :=
    if andb (48 <=? n) (n <=? 57) then Some (n - 48)
    else if andb (97 <=? n) (n <=? 122) then Some (n - 87)
    else if andb (65 <=? n) (n <=? 90) then Some (n - 55)
    else None in
  match v with
  | Some d => if d <? radix then Some d else None
  | None => None
  end.

(** The longest prefix of digits, read left to right; [acc] is [None]
    until a first digit has been seen. *)
Fixpoint digits (radix : Z) (acc : option Z) (s : string) : option Z :=
  match s with
  | String c r =>
      match digit_value radix c with
      | Some d =>
          digits radix
            (Some (match acc with Some a => a * radix + d | None => d end)) r
      | None => acc
      end
  | EmptyString => acc
  end.

(** [parseInt(s)] with no radix argument: leading white space, an
    optional sign, an optional [0x]/[0X] prefix selecting radix 16,
    then the longest run of digits; [NaN] when there is none.  Up to
    2^53 the result is the exact value of the digits; beyond, the
    double nearest to it, which is [Big]. *)
Definition parseInt (s : string) : number :=
  let s1 := skip_spaces s in
  let '(neg, s2) :=
    match s1 with
    | String "-" r => (true, r)
    | String "+" r => (false, r)
    | _ => (false, s1)
    end in
  let '(radix, s3) :=
    match s2 with
    | String "0" (String "x" r) => (16, r)
    | String "0" (String "X" r) => (16, r)
    | _ => (10, s2)
    end in
  match digits radix None s3 with
  | Some n => of_integer (if neg then - n else n)
  | None => NaN
  end.

End Js.

(* ================================================================== *)
(** ** Thrown values and outcomes *)
(* ================================================================== *)

(** A thrown value: the name of its class and its message. *)
Record error := { name : string; message : string }.

(** What a call that may throw ends with. *)
Inductive result (A : Type) :=
| Ok (a : A)
| Throw (e : error).
Arguments Ok {A} a.
Arguments Throw {A} e.

(* ================================================================== *)
(** ** Buffers and the Container Framer *)
(* ================================================================== *)

(** A Node [Buffer]: a sequence of bytes. *)
Definition Buffer := list byte.

Definition byte_of_Z (z : Z) : byte :=
  match Byte.of_N (Z.to_N (z mod 256)) with
  | Some b => b
  | None => x00
  end.

Definition Z_of_byte (b : byte) : Z := Z.of_N (Byte.to_N b).

(** Little-endian encodings of the low 16 and 32 bits of an integer. *)
Definition u16le (z : Z) : Buffer :=
  [byte_of_Z z; byte_of_Z (Z.shiftr z 8)].

Definition u32le (z : Z) : Buffer :=
  [byte_of_Z z; byte_of_Z (Z.shiftr z 8);
   byte_of_Z (Z.shiftr z 16); byte_of_Z (Z.shiftr z 24)].

(** Reading a little-endian signed 16-bit integer back. *)
Definition readInt16LE (lo hi : byte) : Z :=
  let u := Z_of_byte lo + 256 * Z_of_byte hi in
  if u <? 32768 then u else u - 65536.

Fixpoint decodeInt16LE (b : Buffer) : list Z :=
  match b with
  | lo :: hi :: r => readInt16LE lo hi :: decodeInt16LE r
  | _ => []
  end.

Module AudioUtils.

(** A value that an unsigned field of [bits] bits can hold. *)
Definition fits (bits z : Z) : bool := andb (0 <=? z) (z <? 2 ^ bits).

(** The parameters the framer accepts: a sample rate, a channel count
    and a bit depth that are positive, and every field within the
    width the layout gives it. *)
Definition valid (audioLength : Z) (sampleRate : Js.number)
                 (channelCount bitsPerSample : Z) : bool :=
  match sampleRate with
  | Js.Int rate =>
      (0 <? rate) && (0 <? channelCount) && (0 <? bitsPerSample)
      && fits 32 audioLength
      && fits 32 (36 + audioLength)
      && fits 16 channelCount
      && fits 32 rate
      && fits 32 (rate * channelCount * bitsPerSample / 8)
      && fits 16 (channelCount * bitsPerSample / 8)
      && fits 16 bitsPerSample
  | _ => false
  end.

(** The 44 bytes of section 4.1: the literal [RIFF], the u32
    [36 + payload length], the literals [WAVE] and [fmt ], the u32 16,
    the u16 1, the u16 channel count, the u32 sample rate, the u32 byte
    rate, the u16 block align, the u16 bit depth, the literal [data]
    and the u32 payload length, all little-endian. *)
Definition layout (audioLength rate channelCount bitsPerSample : Z)
  : Buffer :=
  (list_byte_of_string "RIFF"
  ++ u32le (36 + audioLength)
  ++ list_byte_of_string "WAVE"
  ++ list_byte_of_string "fmt "
  ++ u32le 16
  ++ u16le 1
  ++ u16le channelCount
  ++ u32le rate
  ++ u32le (rate * channelCount * bitsPerSample / 8)
  ++ u16le (channelCount * bitsPerSample / 8)
  ++ u16le bitsPerSample
  ++ list_byte_of_string "data"
  ++ u32le audioLength)%list.

(** What the framer throws for parameters it does not accept. *)
Definition rejected : error :=
  {| name := "RangeError"; message := "The value is out of range" |}.

(** Modelled from the spec: [getWavHeader] lives in [audioUtils.ts],
    which is imported by the service but is not among the sources.
    Section 4.1 gives the layout and the one failure mode, the
    rejection of dimensions that are not positive; a value that its
    field cannot hold has no encoding in that layout and is rejected
    as well.  The payload length may be 0. *)
Definition getWavHeader (audioLength : Z) (sampleRate : Js.number)
                        (channelCount bitsPerSample : Z) : result Buffer :=
  match sampleRate with
  | Js.Int rate =>
      if valid audioLength sampleRate channelCount bitsPerSample
      then Ok (layout audioLength rate channelCount bitsPerSample)
      else Throw rejected
  | _ => Throw rejected
  end.

End AudioUtils.

(* ================================================================== *)
(** ** Byte streams and the Stream Composer *)
(* ================================================================== *)

Module Stream.

(** A readable stream that runs to its end, seen from its consumer:
    the chunks of its ['data'] events in order, followed by ['end'].
    An object-mode source may deliver zero-length chunks. *)
Definition Readable := list Buffer.

(** The bytes a consumer reads from the stream. *)
Definition bytes (r : Readable) : Buffer := List.concat r.

(** [stream.push(chunk)] on a byte-mode stream ([new Readable()],
    [new PassThrough()]): the chunk is queued for the consumer; a
    zero-length chunk is discarded. *)
Definition push (r : Readable) (chunk : Buffer) : Readable :=
  match chunk with
  | [] => r
  | _ => (r ++ [chunk])%list
  end.

(** [Readable.from(buffer)]: the buffer as the single chunk. *)
Definition from (b : Buffer) : Readable := [b].

(** The variables the two event handlers of [prependWavHeader] close
    over: the flag, the output stream, and whether it was ended. *)
Record Composer := mkComposer {
  pushedHeader : bool;
  passThrough : Readable;
  ended : bool;
}.

Definition initial : Composer :=
  {| pushedHeader := false; passThrough := []; ended := false |}.

(** [readable.on("data", function (data) { ... })]. *)
Definition on_data (wavHeader : Buffer) (c : Composer) (data : Buffer)
  : Composer :=
  let c1 :=
    if negb (pushedHeader c)
    then {| pushedHeader := true;
            passThrough := push (passThrough c) wavHeader;
            ended := ended c |}
    else c in
  {| pushedHeader := pushedHeader c1;
     passThrough := push (passThrough c1) data;
     ended := ended c1 |}.

(** [readable.on("end", function () { passThrough.end(); })]. *)
Definition on_end (c : Composer) : Composer :=
  {| pushedHeader := pushedHeader c;
     passThrough := passThrough c;
     ended := true |}.

(** The composer after the source has delivered all its events. *)
Definition run (wavHeader : Buffer) (readable : Readable) : Composer :=
  on_end (fold_left (on_data wavHeader) readable initial).

(** [prependWavHeader(readable, audioLength, sampleRate, channelCount,
    bitsPerSample)]; the two last arguments default to 1 and 16.  The
    header is built first, and what the framer throws is thrown. *)
Definition prependWavHeader (readable : Readable) (audioLength : Z)
    (sampleRate : Js.number) (channelCount bitsPerSample : Z)
  : result Readable :=
  match
    AudioUtils.getWavHeader audioLength sampleRate channelCount bitsPerSample
  with
  | Ok wavHeader => Ok (passThrough (run wavHeader readable))
  | Throw e => Throw e
  end.

End Stream.

(* ================================================================== *)
(** ** The Sample Converter: 32-bit floats to signed 16-bit PCM *)
(* ================================================================== *)

Module Pcm.

(** The elements of a [Float32Array] that spans a whole [ArrayBuffer],
    such as [new Float32Array(arrayBuffer)] makes.  A sample is a
    binary floating-point datum: a zero, an infinity, NaN, or a sign,
    a mantissa [m] and an exponent [e] standing for [m * 2^e]. *)
Definition Float32Array := list spec_float.

(** An [ArrayBuffer]: the 32-bit floats its bytes hold, four bytes
    each from the start, and the number (below 4) of bytes left over
    after the last whole float. *)
Record ArrayBuffer := {
  floats : Float32Array;
  spare : nat;
}.

(** [arrayBuffer.byteLength]. *)
Definition byteLength (b : ArrayBuffer) : Z :=
  4 * Z.of_nat (List.length (floats b)) + Z.of_nat (spare b).

(** A channel handed back by the engine: a [Float32Array] that is a
    view on its [buffer], starting [offset] floats into it and holding
    [size] samples. *)
Record Channel := {
  buffer : ArrayBuffer;
  offset : nat;
  size : nat;
}.



(** What [new Float32Array(arrayBuffer)] throws when the byte length
    is not a multiple of 4. *)
Definition misaligned : error :=
  {| name := "RangeError";
     message := "byte length of Float32Array should be a multiple of 4" |}.

(** [new Float32Array(arrayBuffer)]: the whole buffer as floats. *)
Definition whole (b : ArrayBuffer) : result Float32Array :=
  if Nat.eqb (spare b) 0 then Ok (floats b) else Throw misaligned.

(** [Math.round(x * k)] for an integer constant [k]; [None] for NaN
    and the infinities.  A 32-bit float has a 24-bit mantissa, so its
    product with 32767 has at most 39 significant bits and the double
    multiplication is exact; [Math.round] is the nearest integer,
    a tie going up: [floor (x * k + 1/2)]. *)
Definition round_times (x : spec_float) (k : Z) : option Z :=
  match x with
  | S754_zero _ => Some 0
  | S754_infinity _ => None
  | S754_nan => None
  | S754_finite sign m e =>
      let n := (if sign then Z.neg m else Z.pos m) * k in
      Some (if 0 <=? e then n * 2 ^ e
            else (2 * n + 2 ^ (- e)) / 2 ^ (1 - e))
  end.

(** Storing a number into an [Int16Array] element: the integer
    modulo 2^16, read as signed; NaN and the infinities store 0. *)
Definition toInt16 (v : option Z) : Z :=
  match v with
  | Some r => (r + 32768) mod 65536 - 32768
  | None => 0
  end.

(** The loop of [processVitsAudio]:
    [pcmBuffer[i] = Math.round(floatArray[i] * 32767)]. *)
Definition convert (floatArray : Float32Array) : list Z :=
  map (fun s => toInt16 (round_times s 32767)) floatArray.

(** [Buffer.from(pcmBuffer.buffer)]: the elements as two bytes each,
    low byte first. *)
Definition Int16Array_bytes (pcmBuffer : list Z) : Buffer :=
  flat_map u16le pcmBuffer.

End Pcm.

(* ================================================================== *)
(** ** The runtime, the outside world and the service *)
(* ================================================================== *)

Module Speech.

(** *** Configuration *)

Record ElevenLabs := {
  voiceId : Js.value;
  el_model : Js.value;
  el_stability : Js.value;
}.

Record Voice := {
  model : Js.value;
  url : Js.value;
  elevenlabs : option ElevenLabs;
}.

Record Settings := { voice : option Voice }.

Record Character := { settings : option Settings }.

Record IAgentRuntime := {
  getSetting : string -> Js.value;
  character : Character;
}.

(** [runtime.character.settings?.voice]. *)
Definition character_voice (runtime : IAgentRuntime) : option Voice :=
  match settings (character runtime) with
  | Some s => voice s
  | None => None
  end.

(** [runtime.character.settings?.voice?.elevenlabs]. *)
Definition character_elevenlabs (runtime : IAgentRuntime)
  : option ElevenLabs :=
  match character_voice runtime with
  | Some v => elevenlabs v
  | None => None
  end.

(** [o?.p] for a string property [p]. *)
Definition prop {A : Type} (o : option A) (p : A -> Js.value) : Js.value :=
  match o with
  | Some a => p a
  | None => None
  end.

Record VoiceSettings := {
  elevenlabsVoiceId : Js.value;
  elevenlabsModel : string;
  elevenlabsStability : string;
  vitsVoice : string;
  useVits : bool;
}.

(** *** Errors, responses, engine results, events *)

(** The request [textToSpeech] sends. *)
Record Request := {
  req_url : string;
  xi_api_key : Js.value;
  model_id : Js.value;
  text : string;
  similarity_boost : Js.value;
  stability : Js.value;
  style : Js.value;
  use_speaker_boost : Js.value;
}.

(** What [fetch] resolves to: the status, and what reading the body
    as text or as an array buffer gives (either may reject). *)
Record Response := {
  status : Z;
  body_text : result string;
  body_arrayBuffer : result Buffer;
}.

(** [response.ok]: a status in the range 200-299. *)
Definition ok (r : Response) : bool :=
  andb (200 <=? status r) (status r <=? 299).

(** What the engine hands back as [audio]: a [Buffer], or another
    object, of which the code probes the properties [audioChannels]
    and [sampleRate]. *)
Inductive Audio :=
| IsBuffer (b : Buffer)
| IsObject (audioChannels : option (list Pcm.Channel))
           (sampleRate : option Js.number).

(** What a call leaves behind for an observer.  Of a log line the
    message is kept, and the error when it reports one. *)
Inductive event :=
| Debug (msg : string)                     (* elizaLogger.debug *)
| ErrorLog (msg : string) (e : error)      (* elizaLogger.error *)
| ConsoleError (msg : string) (e : error)  (* console.error *)
| ConsoleLog (msg : string) (n : option Z) (* console.log *)
| Validated                                (* validateNodeConfig *)
| Fetched (r : Request)                    (* fetch *)
| Synthesized (text voice : string).       (* Echogarden.synthesize *)

(** The collaborators outside the file.  Each external call is
    answered according to the number of external calls made before
    it, so that the same call may fail once and succeed later. *)
Record World := {
  validateNodeConfig_at : nat -> IAgentRuntime -> result unit;
  fetch_at : nat -> Request -> result Response;
  synthesize_at : nat -> string -> string -> result Audio;
}.

(** *** Computations: events emitted, external calls counted, errors
    thrown.  What was emitted and counted before a throw remains. *)

Record Run (A : Type) := {
  outcome : result A;
  events : list event;
  clock : nat;
}.
Arguments outcome {A} r.
Arguments events {A} r.
Arguments clock {A} r.

Definition M (A : Type) := nat -> Run A.

Definition ret {A} (a : A) : M A :=
  fun k => {| outcome := Ok a; events := []; clock := k |}.

Definition throw {A} (e : error) : M A :=
  fun k => {| outcome := Throw e; events := []; clock := k |}.

Definition bind {A B} (m : M A) (f : A -> M B) : M B :=
  fun k =>
    let (o, ev, k1) := m k in
    match o with
    | Ok a =>
        let (o', ev', k2) := f a k1 in
        {| outcome := o'; events := (ev ++ ev')%list; clock := k2 |}
    | Throw e => {| outcome := Throw e; events := ev; clock := k1 |}
    end.

(** [try { m } catch (error) { handler error }]. *)
Definition try_catch {A} (m : M A) (handler : error -> M A) : M A :=
  fun k =>
    let (o, ev, k1) := m k in
    match o with
    | Ok a => {| outcome := Ok a; events := ev; clock := k1 |}
    | Throw e =>
        let (o', ev', k2) := handler e k1 in
        {| outcome := o'; events := (ev ++ ev')%list; clock := k2 |}
    end.

Definition emit (e : event) : M unit :=
  fun k => {| outcome := Ok tt; events := [e]; clock := k |}.

(** An external call: answered by the world at the current count. *)
Definition external {A} (e : event) (answer : nat -> result A) : M A :=
  fun k => {| outcome := answer k; events := [e]; clock := S k |}.

(** Awaiting a promise whose outcome is already determined. *)
Definition await {A} (r : result A) : M A :=
  fun k => {| outcome := r; events := []; clock := k |}.

(** A call inside the process, which returns or throws. *)
Definition call {A} (r : result A) : M A :=
  fun k => {| outcome := r; events := []; clock := k |}.

Declare Scope speech_scope.
Delimit Scope speech_scope with speech.
Notation "x <- m ;; k" := (bind m (fun x => k))
  (at level 61, m at next level, right associativity) : speech_scope.
Notation "m ;; k" := (bind m (fun _ => k))
  (at level 61, right associativity) : speech_scope.
Local Open Scope speech_scope.

Section Service.

Variable world : World.

(** *** [getVoiceSettings] *)

Definition getVoiceSettings (runtime : IAgentRuntime) : M VoiceSettings :=
  let hasElevenLabs :=
    Js.truthy (getSetting runtime "ELEVENLABS_XI_API_KEY") in
  let useVits := negb hasElevenLabs in
  emit (Debug "ElevenLabs API Key:") ;;
  emit (Debug "Voice settings:") ;;
  ret {| elevenlabsVoiceId :=
           Js.or (prop (character_elevenlabs runtime) voiceId)
                 (getSetting runtime "ELEVENLABS_VOICE_ID");
         elevenlabsModel :=
           Js.or_default
             (Js.or (prop (character_elevenlabs runtime) el_model)
                    (getSetting runtime "ELEVENLABS_MODEL_ID"))
             "eleven_monolingual_v1";
         elevenlabsStability :=
           Js.or_default
             (Js.or (prop (character_elevenlabs runtime) el_stability)
                    (getSetting runtime "ELEVENLABS_VOICE_STABILITY"))
             "0.5";
         vitsVoice :=
           Js.or_default
             (Js.or (Js.or (prop (character_voice runtime) model)
                           (prop (character_voice runtime) url))
                    (getSetting runtime "VITS_VOICE"))
             "en_US-hfc_female-medium";
         useVits := useVits |}.

(** *** The Remote Adapter: [textToSpeech] *)

Definition request (runtime : IAgentRuntime) (voice_id : Js.value)
    (text : string) : Request :=
  {| req_url :=
       "https://api.elevenlabs.io/v1/text-to-speech/"
       ++ Js.template voice_id
       ++ "/stream?optimize_streaming_latency="
       ++ Js.template
            (getSetting runtime "ELEVENLABS_OPTIMIZE_STREAMING_LATENCY")
       ++ "&output_format="
       ++ Js.template (getSetting runtime "ELEVENLABS_OUTPUT_FORMAT");
     xi_api_key := getSetting runtime "ELEVENLABS_XI_API_KEY";
     model_id := getSetting runtime "ELEVENLABS_MODEL_ID";
     text := text;
     similarity_boost :=
       getSetting runtime "ELEVENLABS_VOICE_SIMILARITY_BOOST";
     stability := getSetting runtime "ELEVENLABS_VOICE_STABILITY";
     style := getSetting runtime "ELEVENLABS_VOICE_STYLE";
     use_speaker_boost :=
       getSetting runtime "ELEVENLABS_VOICE_USE_SPEAKER_BOOST" |}.

(** The error thrown on a non-success status. *)
Definition status_error (status : Z) (errorBodyString : string) : error :=
  {| name := "Error";
     message :=
       "Received status " ++ NilZero.string_of_int (Z.to_int status)
       ++ " from Eleven Labs API: " ++ errorBodyString |}.

(** Calling [startsWith] on a missing setting. *)
Definition null_startsWith : error :=
  {| name := "TypeError";
     message := "Cannot read properties of null (reading 'startsWith')" |}.

(** [new Readable()], [push(Buffer.from(buffer))], [push(null)]. *)
Definition readable_of (buffer : Buffer) : Stream.Readable :=
  Stream.push [] buffer.

Definition textToSpeech (runtime : IAgentRuntime) (text : string)
  : M Stream.Readable :=
  external Validated (fun k => validateNodeConfig_at world k runtime) ;;
  vs <- getVoiceSettings runtime ;;
  try_catch
    (let req := request runtime (elevenlabsVoiceId vs) text in
     response <- external (Fetched req) (fun k => fetch_at world k req) ;;
     (if negb (ok response)
      then errorBodyString <- await (body_text response) ;;
           throw (status_error (status response) errorBodyString)
      else ret tt) ;;
     buffer <- await (body_arrayBuffer response) ;;
     let readable := readable_of buffer in
     match getSetting runtime "ELEVENLABS_OUTPUT_FORMAT" with
     | None => throw null_startsWith
     | Some format =>
         if Js.startsWith format "pcm_"
         then
           let sampleRate := Js.parseInt (Js.substring_from 4 format) in
           call (Stream.prependWavHeader readable
                   (Z.of_nat (List.length buffer)) sampleRate 1 16)
         else ret readable
     end)
    (fun error =>
       emit (ErrorLog "ElevenLabs API error:" error) ;;
       throw error).

(** *** The Local Adapter: [processVitsAudio], [generateVitsAudio] *)

Definition unsupported_format : error :=
  {| name := "Error"; message := "Unsupported audio format" |}.

(** Reading [buffer] of a missing first channel. *)
Definition undefined_buffer : error :=
  {| name := "TypeError";
     message := "Cannot read properties of undefined (reading 'buffer')" |}.

Definition processVitsAudio (audio : Audio) : M Stream.Readable :=
  match audio with
  | IsBuffer b =>
      emit (ConsoleLog "audio is a buffer" None) ;;
      ret (Stream.from b)
  | IsObject (Some audioChannels) (Some sampleRate) =>
      emit (ConsoleLog "audio is a RawAudio" None) ;;
      match audioChannels with
      | [] => throw undefined_buffer
      | channel :: _ =>
          let floatBuffer := Pcm.buffer channel in
          emit (ConsoleLog "buffer length: "
                  (Some (Pcm.byteLength floatBuffer))) ;;
          floatArray <- call (Pcm.whole floatBuffer) ;;
          let pcmBuffer := Pcm.convert floatArray in
          wavHeaderBuffer <-
            call (AudioUtils.getWavHeader
                    (Z.of_nat (List.length pcmBuffer) * 2)
                    sampleRate 1 16) ;;
          let wavBuffer :=
            (wavHeaderBuffer ++ Pcm.Int16Array_bytes pcmBuffer)%list in
          ret (Stream.from wavBuffer)
      end
  | IsObject _ _ => throw unsupported_format
  end.

Definition generateVitsAudio (runtime : IAgentRuntime) (text : string)
  : M Stream.Readable :=
  vs <- getVoiceSettings runtime ;;
  audio <- external (Synthesized text (vitsVoice vs))
             (fun k => synthesize_at world k text (vitsVoice vs)) ;;
  processVitsAudio audio.

(** *** The Selector: [SpeechService.generate] *)

Definition generate (runtime : IAgentRuntime) (text : string)
  : M Stream.Readable :=
  try_catch
    (vs <- getVoiceSettings runtime ;;
     emit (Debug "Generate speech settings:") ;;
     if orb (useVits vs)
            (negb (Js.truthy (getSetting runtime "ELEVENLABS_XI_API_KEY")))
     then
       emit (Debug "Using VITS because:") ;;
       generateVitsAudio runtime text
     else textToSpeech runtime text)
    (fun error =>
       emit (ConsoleError "Speech generation error:" error) ;;
       emit (ErrorLog "Falling back to VITS due to error:" error) ;;
       generateVitsAudio runtime text).

End Service.

End Speech.

(* ================================================================== *)
(** ** Inputs used in the examples below *)
(* ================================================================== *)

Module Samples.

(** The 32-bit floats 0.5, 1.0, -1.0 and 1.2 (the float nearest to
    1.2 is 10066330 * 2^-23). *)
Definition half : spec_float := S754_finite false 1 (-1).
Definition one : spec_float := S754_finite false 1 0.
Definition minus_one : spec_float := S754_finite true 1 0.
Definition one_point_two : spec_float := S754_finite false 10066330 (-23).


(** A channel of one sample that is a view on a buffer of two. *)
Definition view : Pcm.Channel :=
  {| Pcm.buffer := {| Pcm.floats := [half; one]; Pcm.spare := 0 |};
     Pcm.offset := 0;
     Pcm.size := 1 |}.

Definition no_character : Speech.Character :=
  {| Speech.settings := None |}.

(** A runtime whose settings hold an API key and an output format. *)
Definition remote_runtime (format : string) : Speech.IAgentRuntime :=
  {| Speech.getSetting := fun key =>
       if String.eqb key "ELEVENLABS_XI_API_KEY" then Some "sk-test"
       else if String.eqb key "ELEVENLABS_OUTPUT_FORMAT" then Some format
       else None;
     Speech.character := no_character |}.

(** A runtime whose settings hold an API key and nothing else. *)
Definition unformatted_runtime : Speech.IAgentRuntime :=
  {| Speech.getSetting := fun key =>
       if String.eqb key "ELEVENLABS_XI_API_KEY" then Some "sk-test"
       else None;
     Speech.character := no_character |}.

(** A runtime with no setting at all. *)
Definition local_runtime : Speech.IAgentRuntime :=
  {| Speech.getSetting := fun _ => None;
     Speech.character := no_character |}.

Definition engine_down : error :=
  {| name := "Error"; message := "engine unavailable" |}.

Definition config_error : error :=
  {| name := "Error"; message := "configuration is invalid" |}.

Definition body : Buffer := [x01; x02; x03; x04].

Definition response (status : Z) : Speech.Response :=
  {| Speech.status := status;
     Speech.body_text := Ok "denied";
     Speech.body_arrayBuffer := Ok body |}.

(** A world in which validation passes, the provider answers every
    request with the given status, and the engine returns an encoded
    buffer except on the external calls listed in [down]. *)
Definition world (status : Z) (down : list nat) : Speech.World :=
  {| Speech.validateNodeConfig_at := fun _ _ => Ok tt;
     Speech.fetch_at := fun _ _ => Ok (response status);
     Speech.synthesize_at := fun k _ _ =>
       if existsb (Nat.eqb k) down then Throw engine_down
       else Ok (Speech.IsBuffer [x52; x49]) |}.

(** The same world, except that validation rejects the settings. *)
Definition misconfigured (status : Z) : Speech.World :=
  {| Speech.validateNodeConfig_at := fun _ _ => Throw config_error;
     Speech.fetch_at := Speech.fetch_at (world status []);
     Speech.synthesize_at := Speech.synthesize_at (world status []) |}.

End Samples.

(** Counting the requests and the engine invocations of a run. *)
Definition is_fetch (e : Speech.event) : bool :=
  match e with Speech.Fetched _ => true | _ => false end.

Definition is_synthesis (e : Speech.event) : bool :=
  match e with Speech.Synthesized _ _ => true | _ => false end.

Definition is_remote (e : Speech.event) : bool :=
  match e with
  | Speech.Validated => true
  | Speech.Fetched _ => true
  | _ => false
  end.

Definition count (p : Speech.event -> bool) (l : list Speech.event) : nat :=
  List.length (filter p l).

Definition nonempty (chunk : Buffer) : bool :=
  match chunk with [] => false | _ => true end.

(** What [generate] logs before it chooses an adapter. *)
Definition prelude : list Speech.event :=
  [Speech.Debug "ElevenLabs API Key:"; Speech.Debug "Voice settings:";
   Speech.Debug "Generate speech settings:"].

(** The request [textToSpeech] sends for a runtime and a text: the
    voice is the character's, or else the configured one. *)
Definition sent_request (runtime : Speech.IAgentRuntime) (text : string)
  : Speech.Request :=
  Speech.request runtime
    (Js.or (Speech.prop (Speech.character_elevenlabs runtime) Speech.voiceId)
           (Speech.getSetting runtime "ELEVENLABS_VOICE_ID"))
    text.

(** The remote API key is configured: the setting holds a string that
    is not empty. *)
Definition has_api_key (runtime : Speech.IAgentRuntime) : Prop :=
  exists key, Speech.getSetting runtime "ELEVENLABS_XI_API_KEY" = Some key
              /\ key <> "".

(** A runtime whose character names its own voices. *)
Definition voiced_runtime : Speech.IAgentRuntime :=
  {| Speech.getSetting := fun key =>
       if String.eqb key "VITS_VOICE" then Some "en_GB-alan-low" else None;
     Speech.character :=
       {| Speech.settings :=
            Some {| Speech.voice :=
                      Some {| Speech.model := Some "en_US-amy-medium";
                              Speech.url := None;
                              Speech.elevenlabs :=
                                Some {| Speech.voiceId := Some "voice-7";
                                        Speech.el_model := None;
                                        Speech.el_stability := Some "" |}
                           |} |} |} |}.

(** The run of [textToSpeech] whose [try] block throws [e] after the
    request was sent. *)
Definition failed_request (runtime : Speech.IAgentRuntime) (text : string)
    (k : nat) (e : error) : Speech.Run Stream.Readable :=
  {| Speech.outcome := Throw e;
     Speech.events :=
       [Speech.Validated; Speech.Debug "ElevenLabs API Key:";
        Speech.Debug "Voice settings:";
        Speech.Fetched (sent_request runtime text);
        Speech.ErrorLog "ElevenLabs API error:" e];
     Speech.clock := S (S k) |}.

(** The run of [textToSpeech] that returns [stream]. *)
Definition delivered (runtime : Speech.IAgentRuntime) (text : string)
    (k : nat) (stream : Stream.Readable) : Speech.Run Stream.Readable :=
  {| Speech.outcome := Ok stream;
     Speech.events :=
       [Speech.Validated; Speech.Debug "ElevenLabs API Key:";
        Speech.Debug "Voice settings:";
        Speech.Fetched (sent_request runtime text)];
     Speech.clock := S (S k) |}.

(** A sample of magnitude at most 1: a zero, or [m * 2^e <= 1]. *)
Definition within_unit (s : spec_float) : bool :=
  match s with
  | S754_zero _ => true
  | S754_finite _ m e =>
      if 0 <=? e then Z.pos m * 2 ^ e <=? 1 else Z.pos m <=? 2 ^ (- e)
  | _ => false
  end.

(** The log line [textToSpeech] writes when its [try] block throws. *)
Definition is_api_error_log (e : Speech.event) : bool :=
  match e with
  | Speech.ErrorLog msg _ => String.eqb msg "ElevenLabs API error:"
  | _ => false
  end.

(** A natural number written in decimal, as in a format tag. *)
Definition decimal (n : N) : string := NilZero.string_of_uint (N.to_uint n).

(** An engine result that [processVitsAudio] turns into a stream: a
    buffer, or an object with a sample rate and a first channel whose
    buffer holds whole floats only, such that the framer accepts the
    parameters of the header. *)
Definition supported (audio : Speech.Audio) : bool :=
  match audio with
  | Speech.IsBuffer _ => true
  | Speech.IsObject (Some (channel :: _)) (Some sampleRate) =>
      Nat.eqb (Pcm.spare (Pcm.buffer channel)) 0
      && AudioUtils.valid
           (2 * Z.of_nat (List.length (Pcm.floats (Pcm.buffer channel))))
           sampleRate 1 16
  | _ => false
  end.

(** ** Proof automation *)

Import Speech.

(** Unfold the plumbing of a computation, leaving its pure parts. *)
Ltac reduce_run :=
  cbn -[Js.truthy Js.startsWith Js.parseInt Js.substring_from
        Stream.prependWavHeader AudioUtils.getWavHeader Pcm.convert
        Pcm.Int16Array_bytes Pcm.whole Pcm.byteLength request ok
        textToSpeech generateVitsAudio processVitsAudio Z.mul Z.of_nat].

Ltac open_run :=
  unfold try_catch, bind, getVoiceSettings, external, await, call, emit,
    ret, throw;
  reduce_run.

(** The cases of what the engine handed back, down to the two calls
    of [processVitsAudio] that may throw. *)
Ltac audio_cases audio :=
  destruct audio as [?b|[[|?channel ?channels]|] [?rate|]]; reduce_run;
  try (destruct (Pcm.whole _) as [?floatArray|?e]; reduce_run;
       try (destruct (AudioUtils.getWavHeader _ _ _ _) as [?header|?e];
            reduce_run)).

(* ================================================================== *)
(** ** The Container Framer *)
(* ================================================================== *)

Lemma layout_length (a r c b : Z) :
  List.length (AudioUtils.layout a r c b) = 44%nat.
Proof. reflexivity. Qed.

(** A header the framer returns is the layout of accepted parameters,
    and has 44 bytes. *)
Lemma getWavHeader_ok (a : Z) (s : Js.number) (c b : Z) (header : Buffer) :
  AudioUtils.getWavHeader a s c b = Ok header ->
  AudioUtils.valid a s c b = true
  /\ List.length header = 44%nat
  /\ exists rate, s = Js.Int rate /\ header = AudioUtils.layout a rate c b.
Proof.
  unfold AudioUtils.getWavHeader.
  destruct s as [rate| |]; try discriminate.
  destruct (AudioUtils.valid a (Js.Int rate) c b); [|discriminate].
  intros [= <-]. split; [reflexivity|]. split; [apply layout_length|].
  now exists rate.
Qed.

(** Parameters the framer accepts give a header. *)
Lemma getWavHeader_valid (a : Z) (s : Js.number) (c b : Z) :
  AudioUtils.valid a s c b = true ->
  exists header, AudioUtils.getWavHeader a s c b = Ok header.
Proof.
  unfold AudioUtils.getWavHeader. intros Hvalid.
  destruct s as [rate| |]; try discriminate.
  rewrite Hvalid. now eexists.
Qed.

(* ================================================================== *)
(** ** The Stream Composer *)
(* ================================================================== *)

Lemma bytes_push (r : Stream.Readable) (chunk : Buffer) :
  Stream.bytes (Stream.push r chunk) = (Stream.bytes r ++ chunk)%list.
Proof.
  unfold Stream.bytes, Stream.push.
  destruct chunk as [|b chunk].
  - now rewrite app_nil_r.
  - rewrite concat_app. simpl. now rewrite app_nil_r.
Qed.

Lemma push_filter (r : Stream.Readable) (chunk : Buffer) :
  Stream.push r chunk = (r ++ filter nonempty [chunk])%list.
Proof.
  destruct chunk; simpl.
  - now rewrite app_nil_r.
  - reflexivity.
Qed.

Lemma bytes_filter_nonempty (l : Stream.Readable) :
  Stream.bytes (filter nonempty l) = Stream.bytes l.
Proof.
  unfold Stream.bytes.
  induction l as [|c l IH]; simpl; [reflexivity|].
  destruct c; simpl; [exact IH|]. now rewrite IH.
Qed.

(** Once the flag is set, the data handler only forwards. *)
Lemma on_data_after_header (h : Buffer) (src : Stream.Readable) :
  forall c, Stream.pushedHeader c = true ->
    fold_left (Stream.on_data h) src c =
    {| Stream.pushedHeader := true;
       Stream.passThrough := (Stream.passThrough c ++ filter nonempty src)%list;
       Stream.ended := Stream.ended c |}.
Proof.
  induction src as [|d src IH]; intros c Hc.
  - simpl. rewrite app_nil_r. destruct c; simpl in *; now subst.
  - simpl fold_left. rewrite IH.
    + unfold Stream.on_data. rewrite Hc. simpl.
      rewrite push_filter, <- app_assoc. destruct d; reflexivity.
    + unfold Stream.on_data. now rewrite Hc.
Qed.

(** The chunks the handlers push for a source with a first chunk and
    a header that is not empty. *)
Lemma run_chunks (h : Buffer) (d : Buffer) (src : Stream.Readable) :
  h <> [] ->
  Stream.passThrough (Stream.run h (d :: src))
  = h :: filter nonempty (d :: src).
Proof.
  intros Hh. unfold Stream.run. simpl fold_left.
  rewrite on_data_after_header by reflexivity.
  cbn [Stream.on_end Stream.passThrough Stream.on_data Stream.initial
       Stream.pushedHeader negb].
  rewrite !push_filter. cbn [app].
  destruct h as [|x h]; [congruence|].
  destruct d; reflexivity.
Qed.

(** The chunks the composer pushes for a source with a first chunk. *)
Lemma prependWavHeader_chunks (d : Buffer) (src : Stream.Readable)
    (a : Z) (s : Js.number) (c b : Z) (header : Buffer) :
  AudioUtils.getWavHeader a s c b = Ok header ->
  Stream.prependWavHeader (d :: src) a s c b
  = Ok (header :: filter nonempty (d :: src)).
Proof.
  intros Hheader. unfold Stream.prependWavHeader. rewrite Hheader.
  rewrite run_chunks; [reflexivity|].
  destruct (getWavHeader_ok a s c b header Hheader) as [_ [Hlen _]].
  destruct header; [discriminate | congruence].
Qed.

Lemma skipn_header (header l : Buffer) :
  List.length header = 44%nat -> skipn 44 (header ++ l) = l.
Proof.
  intros Hlen. rewrite skipn_app, Hlen, Nat.sub_diag.
  rewrite skipn_all2 by lia. reflexivity.
Qed.

(** C10: a source that ends without any data chunk gives an empty
    output: the handlers push nothing, not even the header, and the
    output is ended; this is the stream the composer returns whenever
    the framer has returned a header. *)
Theorem C10_no_chunk_no_header (a : Z) (s : Js.number) (c b : Z) :
  Stream.prependWavHeader [] a s c b
  = match AudioUtils.getWavHeader a s c b with
    | Ok _ => Ok []
    | Throw e => Throw e
    end
  /\ (forall header,
        Stream.passThrough (Stream.run header []) = []
        /\ Stream.bytes (Stream.passThrough (Stream.run header [])) = []
        /\ Stream.pushedHeader (Stream.run header []) = false
        /\ Stream.ended (Stream.run header []) = true).
Proof.
  unfold Stream.prependWavHeader.
  destruct (AudioUtils.getWavHeader a s c b); repeat split.
Qed.

(** C3, as stated, fails for the source that ends without a chunk: the
    output is empty instead of the 44-byte header alone. *)
Lemma C3_empty_source_counterexample :
  AudioUtils.getWavHeader 0 (Js.Int 24000) 1 16
  = Ok (AudioUtils.layout 0 24000 1 16)
  /\ Stream.prependWavHeader [] 0 (Js.Int 24000) 1 16 = Ok []
  /\ Stream.bytes []
     <> (AudioUtils.layout 0 24000 1 16 ++ Stream.bytes [])%list.
Proof. repeat split. discriminate. Qed.

(** C3 (amended): for a source that produces at least one data chunk,
    the output is the 44-byte header followed by every byte of the
    source in order, and the output ends when the source does. *)
Theorem C3_header_then_source (src : Stream.Readable)
    (a : Z) (s : Js.number) (c b : Z) (header : Buffer) :
  src <> [] ->
  AudioUtils.getWavHeader a s c b = Ok header ->
  exists out,
    Stream.prependWavHeader src a s c b = Ok out
    /\ Stream.bytes out = (header ++ Stream.bytes src)%list
    /\ List.length header = 44%nat
    /\ Stream.ended (Stream.run header src) = true.
Proof.
  intros Hsrc Hheader. destruct src as [|d src]; [congruence|].
  eexists. split; [apply prependWavHeader_chunks; exact Hheader|].
  split; [|split; [apply (getWavHeader_ok a s c b header Hheader)
                  | reflexivity]].
  change (Stream.bytes (?h :: ?l)) with (h ++ Stream.bytes l)%list.
  now rewrite bytes_filter_nonempty.
Qed.

Lemma C3_header_then_source_witness :
  exists out,
    Stream.prependWavHeader [[x01]; [x02; x03]] 3 (Js.Int 8000) 1 16 = Ok out
    /\ Stream.bytes out
       = (AudioUtils.layout 3 8000 1 16 ++ [x01; x02; x03])%list
    /\ List.length (AudioUtils.layout 3 8000 1 16) = 44%nat
    /\ Stream.ended
         (Stream.run (AudioUtils.layout 3 8000 1 16) [[x01]; [x02; x03]])
       = true.
Proof.
  apply (C3_header_then_source [[x01]; [x02; x03]] 3 (Js.Int 8000) 1 16
           (AudioUtils.layout 3 8000 1 16)).
  - discriminate.
  - reflexivity.
Defined.

(** C4: for a source with at least one chunk the header is pushed once,
    as the first chunk of the output, also when zero-length chunks come
    first; and two such sources with the same bytes give the same
    bytes, however they are cut into chunks. *)
Theorem C4_header_once_chunking_irrelevant (src src' : Stream.Readable)
    (a : Z) (s : Js.number) (c b : Z) (header : Buffer) :
  src <> [] -> src' <> [] ->
  Stream.bytes src = Stream.bytes src' ->
  AudioUtils.getWavHeader a s c b = Ok header ->
  Stream.prependWavHeader src a s c b
  = Ok (header :: filter nonempty src)
  /\ Stream.prependWavHeader src' a s c b
     = Ok (header :: filter nonempty src')
  /\ Stream.bytes (header :: filter nonempty src)
     = Stream.bytes (header :: filter nonempty src').
Proof.
  intros Hsrc Hsrc' Hbytes Hheader.
  destruct src as [|d src]; [congruence|].
  destruct src' as [|d' src']; [congruence|].
  split; [now apply prependWavHeader_chunks|].
  split; [now apply prependWavHeader_chunks|].
  change (Stream.bytes (?h :: ?l)) with (h ++ Stream.bytes l)%list.
  now rewrite !bytes_filter_nonempty, Hbytes.
Qed.

Lemma C4_header_once_chunking_irrelevant_witness :
  Stream.prependWavHeader [[]; [x01]; [x02]; [x03]] 3 (Js.Int 8000) 1 16
  = Ok [AudioUtils.layout 3 8000 1 16; [x01]; [x02]; [x03]]
  /\ Stream.prependWavHeader [[x01; x02; x03]] 3 (Js.Int 8000) 1 16
     = Ok [AudioUtils.layout 3 8000 1 16; [x01; x02; x03]]
  /\ Stream.bytes [AudioUtils.layout 3 8000 1 16; [x01]; [x02]; [x03]]
     = Stream.bytes [AudioUtils.layout 3 8000 1 16; [x01; x02; x03]].
Proof.
  apply (C4_header_once_chunking_irrelevant
           [[]; [x01]; [x02]; [x03]] [[x01; x02; x03]] 3 (Js.Int 8000) 1 16
           (AudioUtils.layout 3 8000 1 16));
    [discriminate | discriminate | reflexivity | reflexivity].
Defined.

(* ================================================================== *)
(** ** The Sample Converter *)
(* ================================================================== *)

Lemma Z_of_byte_of_Z (z : Z) : Z_of_byte (byte_of_Z z) = z mod 256.
Proof.
  unfold Z_of_byte, byte_of_Z.
  assert (Hr : 0 <= z mod 256 < 256) by (apply Z.mod_pos_bound; lia).
  destruct (Byte.of_N (Z.to_N (z mod 256))) as [b|] eqn:E.
  - apply Byte.to_of_N in E. rewrite E. apply Z2N.id. lia.
  - apply Byte.of_N_None_iff in E. lia.
Qed.

(** Two bytes written low first read back as the signed value. *)
Lemma readInt16LE_u16le (z : Z) :
  -32768 <= z <= 32767 ->
  readInt16LE (byte_of_Z z) (byte_of_Z (Z.shiftr z 8)) = z.
Proof.
  intros Hz. unfold readInt16LE.
  rewrite !Z_of_byte_of_Z, Z.shiftr_div_pow2 by lia.
  change (2 ^ 8) with 256.
  assert (E : z mod 256 + 256 * ((z / 256) mod 256) = z mod 65536).
  { change 65536 with (256 * 256). rewrite Z.rem_mul_r by lia. reflexivity. }
  rewrite E.
  destruct (Z.ltb_spec (z mod 65536) 32768) as [Hlt|Hge].
  - destruct (Z.lt_ge_cases z 0) as [Hneg|Hpos].
    + assert (z mod 65536 = z + 65536)
        by (symmetry; apply Z.mod_unique with (q := -1); lia).
      lia.
    + apply Z.mod_small. lia.
  - destruct (Z.lt_ge_cases z 0) as [Hneg|Hpos].
    + assert (z mod 65536 = z + 65536)
        by (symmetry; apply Z.mod_unique with (q := -1); lia).
      lia.
    + rewrite Z.mod_small in Hge by lia. lia.
Qed.

Lemma decodeInt16LE_bytes (l : list Z) :
  Forall (fun z => -32768 <= z <= 32767) l ->
  decodeInt16LE (Pcm.Int16Array_bytes l) = l.
Proof.
  induction 1 as [|z l Hz _ IH]; [reflexivity|].
  unfold Pcm.Int16Array_bytes in *. simpl flat_map.
  change (u16le z ++ ?r)%list with
    (byte_of_Z z :: byte_of_Z (Z.shiftr z 8) :: r).
  cbn [decodeInt16LE]. rewrite IH. f_equal.
  now apply readInt16LE_u16le.
Qed.

Lemma toInt16_range (v : option Z) : -32768 <= Pcm.toInt16 v <= 32767.
Proof.
  destruct v as [r|]; unfold Pcm.toInt16; [|lia].
  pose proof (Z.mod_pos_bound (r + 32768) 65536). lia.
Qed.

Lemma toInt16_in_range (r : Z) :
  -32768 <= r <= 32767 -> Pcm.toInt16 (Some r) = r.
Proof. intros H. unfold Pcm.toInt16. rewrite Z.mod_small; lia. Qed.

Lemma Int16Array_bytes_length (l : list Z) :
  List.length (Pcm.Int16Array_bytes l) = (2 * List.length l)%nat.
Proof.
  unfold Pcm.Int16Array_bytes.
  induction l as [|z l IH]; [reflexivity|].
  simpl. rewrite IH. lia.
Qed.

Lemma convert_length (floatArray : Pcm.Float32Array) :
  List.length (Pcm.convert floatArray) = List.length floatArray.
Proof. apply length_map. Qed.

(** What the converter's output holds, read back as little-endian
    signed 16-bit integers: the stored elements themselves. *)
Lemma decode_convert (floatArray : Pcm.Float32Array) :
  decodeInt16LE (Pcm.Int16Array_bytes (Pcm.convert floatArray)) =
  Pcm.convert floatArray.
Proof.
  apply decodeInt16LE_bytes. unfold Pcm.convert.
  apply Forall_forall. intros z Hz.
  apply in_map_iff in Hz. destruct Hz as [s [<- _]].
  apply toInt16_range.
Qed.

(** C2, as stated, fails on the scenario's own input: 0.5 gives 16384
    (16383.5 rounds up), -1.0 gives -32767, and 1.2 gives 39320 which
    is stored modulo 2^16 as -26216 instead of being clamped. *)
Lemma C2_scenario_counterexample :
  decodeInt16LE
    (Pcm.Int16Array_bytes
       (Pcm.convert [Samples.half; Samples.minus_one; Samples.one_point_two]))
  = [16384; -32767; -26216]
  /\ decodeInt16LE
       (Pcm.Int16Array_bytes
          (Pcm.convert [Samples.half; Samples.minus_one; Samples.one_point_two]))
     <> [16383; -32768; 32767].
Proof. split; [reflexivity | discriminate]. Qed.

(** C2 (amended): when every sample [s] has [Math.round(s * 32767)]
    within the signed 16-bit range, the output holds exactly these
    rounded values as little-endian 16-bit integers; 1.0 gives 32767,
    -1.0 gives -32767 and 0.5 gives 16384. *)
Theorem C2_in_range_samples_round (floatArray : Pcm.Float32Array) :
  Forall (fun s => exists r, Pcm.round_times s 32767 = Some r
                             /\ -32768 <= r <= 32767) floatArray ->
  map Some
    (decodeInt16LE (Pcm.Int16Array_bytes (Pcm.convert floatArray)))
  = map (fun s => Pcm.round_times s 32767) floatArray
  /\ Pcm.convert [Samples.one; Samples.minus_one; Samples.half]
     = [32767; -32767; 16384].
Proof.
  intros Hrange. split; [|reflexivity].
  rewrite decode_convert. unfold Pcm.convert. rewrite map_map.
  apply map_ext_in. intros s Hs.
  rewrite Forall_forall in Hrange.
  destruct (Hrange s Hs) as [r [Er Hr]].
  rewrite Er. now rewrite toInt16_in_range.
Qed.

Lemma C2_in_range_samples_round_witness :
  map Some
    (decodeInt16LE
       (Pcm.Int16Array_bytes (Pcm.convert [Samples.half; Samples.minus_one])))
  = [Some 16384; Some (-32767)].
Proof.
  apply (C2_in_range_samples_round [Samples.half; Samples.minus_one]).
  repeat constructor.
  - exists 16384. split; [reflexivity | lia].
  - exists (-32767). split; [reflexivity | lia].
Defined.

(* ================================================================== *)
(** ** Further properties of the Sample Converter *)
(* ================================================================== *)

(** A sample of magnitude at most 1 rounds within [-32767, 32767]. *)
Lemma round_times_unit (s : spec_float) :
  within_unit s = true ->
  exists r, Pcm.round_times s 32767 = Some r /\ -32767 <= r <= 32767.
Proof.
  destruct s as [sg|sg| |sg m e]; cbn [within_unit Pcm.round_times];
    try discriminate.
  - intros _. exists 0. split; [reflexivity | lia].
  - pose proof (Pos2Z.is_pos m) as Hpos.
    destruct (Z.leb_spec 0 e) as [He|He]; intros Hu.
    + apply Z.leb_le in Hu. eexists. split; [reflexivity|].
      assert (Hp : 0 < 2 ^ e) by (apply Z.pow_pos_nonneg; lia).
      assert (Hm : Z.pos m * 2 ^ e = 1).
      { pose proof (Z.mul_le_mono_nonneg 1 (Z.pos m) 1 (2 ^ e)). lia. }
      destruct sg.
      * replace (Z.neg m * 32767 * 2 ^ e) with (- (32767 * (Z.pos m * 2 ^ e)))
          by (rewrite <- Pos2Z.opp_pos; ring).
        rewrite Hm. lia.
      * replace (Z.pos m * 32767 * 2 ^ e) with (32767 * (Z.pos m * 2 ^ e))
          by ring.
        rewrite Hm. lia.
    + apply Z.leb_le in Hu. eexists. split; [reflexivity|].
      assert (Hd : 0 < 2 ^ (- e)) by (apply Z.pow_pos_nonneg; lia).
      assert (E : 2 ^ (1 - e) = 2 * 2 ^ (- e)).
      { replace (1 - e) with (Z.succ (- e)) by lia.
        apply Z.pow_succ_r. lia. }
      rewrite E. set (d := 2 ^ (- e)) in *.
      destruct sg.
      * rewrite <- Pos2Z.opp_pos. split.
        -- apply Z.div_le_lower_bound; lia.
        -- assert (2 * (- Z.pos m * 32767) + d < 2 * d * 32768) by lia.
           assert ((2 * (- Z.pos m * 32767) + d) / (2 * d) < 32768)
             by (apply Z.div_lt_upper_bound; lia).
           lia.
      * split.
        -- apply Z.div_le_lower_bound; lia.
        -- assert ((2 * (Z.pos m * 32767) + d) / (2 * d) < 32768)
             by (apply Z.div_lt_upper_bound; lia).
           lia.
Qed.

(** X3: samples of magnitude at most 1 are converted without any
    wrap-around: each element is exactly [Math.round(s * 32767)], and
    it lies between -32767 and 32767, so that -32768 never occurs. *)
Theorem X3_unit_samples_convert_exactly (floatArray : Pcm.Float32Array) :
  (forall s, In s floatArray -> within_unit s = true) ->
  map Some (Pcm.convert floatArray)
  = map (fun s => Pcm.round_times s 32767) floatArray
  /\ Forall (fun v => -32767 <= v <= 32767) (Pcm.convert floatArray).
Proof.
  intros Hunit. unfold Pcm.convert. split.
  - rewrite map_map. apply map_ext_in. intros s Hs.
    destruct (round_times_unit s (Hunit s Hs)) as [r [-> Hr]].
    rewrite toInt16_in_range by lia. reflexivity.
  - apply Forall_forall. intros v Hv.
    apply in_map_iff in Hv. destruct Hv as [s [<- Hs]].
    destruct (round_times_unit s (Hunit s Hs)) as [r [-> Hr]].
    rewrite toInt16_in_range by lia. exact Hr.
Qed.

Lemma X3_unit_samples_convert_exactly_witness :
  Forall (fun v => -32767 <= v <= 32767)
    (Pcm.convert [Samples.one; Samples.minus_one; Samples.half]).
Proof.
  apply (X3_unit_samples_convert_exactly
           [Samples.one; Samples.minus_one; Samples.half]).
  intros s [<- | [<- | [<- | []]]]; reflexivity.
Defined.

(** X4: a sample that is not finite is stored as 0; a sample whose
    rounded value [r] lies above the 16-bit range, up to 65535, is
    stored as [r - 65536], a negative value; and one below the range,
    down to -65536, is stored as [r + 65536], which is not negative. *)
Theorem X4_out_of_range_samples_wrap (s : spec_float) (r : Z) :
  Pcm.round_times s 32767 = Some r ->
  (32767 < r <= 65535 ->
     Pcm.convert [s] = [r - 65536] /\ r - 65536 < 0)
  /\ (-65536 <= r < -32768 ->
        Pcm.convert [s] = [r + 65536] /\ 0 <= r + 65536)
  /\ Pcm.convert [S754_nan; S754_infinity false; S754_infinity true]
     = [0; 0; 0].
Proof.
  intros Er.
  assert (Ec : Pcm.convert [s] = [(r + 32768) mod 65536 - 32768]).
  { unfold Pcm.convert. cbn [map]. now rewrite Er. }
  rewrite Ec. split; [|split; [|reflexivity]]; intros Hr.
  - assert (E : (r + 32768) mod 65536 - 32768 = r - 65536).
    { rewrite <- (Z.mod_unique (r + 32768) 65536 1 (r - 32768)); lia. }
    rewrite E. split; [reflexivity | lia].
  - assert (E : (r + 32768) mod 65536 - 32768 = r + 65536).
    { rewrite <- (Z.mod_unique (r + 32768) 65536 (-1) (r + 98304)); lia. }
    rewrite E. split; [reflexivity | lia].
Qed.

Lemma X4_out_of_range_samples_wrap_witness :
  Pcm.convert [Samples.one_point_two] = [39320 - 65536].
Proof.
  apply (X4_out_of_range_samples_wrap Samples.one_point_two 39320 eq_refl).
  lia.
Defined.


(* ================================================================== *)
(** ** Runs of the adapters and of the selector *)
(* ================================================================== *)

Lemma truthy_has_api_key (runtime : IAgentRuntime) :
  Js.truthy (getSetting runtime "ELEVENLABS_XI_API_KEY") = true
  <-> has_api_key runtime.
Proof.
  unfold has_api_key, Js.truthy.
  destruct (getSetting runtime "ELEVENLABS_XI_API_KEY") as [s|].
  - destruct (String.eqb_spec s "") as [->|Hs]; simpl; split.
    + discriminate.
    + intros [key [E Hkey]]. congruence.
    + intros _. now exists s.
    + reflexivity.
  - split; [discriminate | intros [key [E _]]; discriminate].
Qed.

Lemma count_app (p : event -> bool) (l l' : list event) :
  count p (l ++ l') = (count p l + count p l')%nat.
Proof. unfold count. now rewrite filter_app, length_app. Qed.

Lemma count_zero_not_in (p : event -> bool) (l : list event) (e : event) :
  count p l = 0%nat -> p e = true -> ~ In e l.
Proof.
  unfold count. intros Hz He Hin.
  assert (Hf : In e (filter p l)) by (apply filter_In; now split).
  destruct (filter p l); [contradiction | discriminate].
Qed.

(** The local adapter invokes the engine once and never the provider. *)
Lemma generateVitsAudio_events (w : World) (rt : IAgentRuntime)
    (text : string) (k : nat) :
  count is_synthesis (events (generateVitsAudio w rt text k)) = 1%nat
  /\ count is_remote (events (generateVitsAudio w rt text k)) = 0%nat.
Proof.
  unfold generateVitsAudio, processVitsAudio. open_run.
  destruct (synthesize_at w k text _) as [audio|e]; reduce_run.
  - audio_cases audio; split; reflexivity.
  - split; reflexivity.
Qed.

(** The remote adapter never invokes the engine, and sends exactly one
    request once validation has passed. *)
Lemma textToSpeech_events (w : World) (rt : IAgentRuntime)
    (text : string) (k : nat) :
  count is_synthesis (events (textToSpeech w rt text k)) = 0%nat
  /\ In Validated (events (textToSpeech w rt text k))
  /\ (validateNodeConfig_at w k rt = Ok tt ->
      count is_fetch (events (textToSpeech w rt text k)) = 1%nat).
Proof.
  unfold textToSpeech. open_run. fold (sent_request rt text).
  destruct (validateNodeConfig_at w k rt) as [[]|e0]; reduce_run.
  2: { repeat split; [now left | discriminate]. }
  destruct (fetch_at w (S k) (sent_request rt text)) as [resp|e1]; reduce_run.
  2: { repeat split; now left. }
  destruct (ok resp); reduce_run.
  - destruct (body_arrayBuffer resp) as [buffer|e2]; reduce_run.
    2: { repeat split; now left. }
    destruct (getSetting rt "ELEVENLABS_OUTPUT_FORMAT") as [format|];
      reduce_run.
    2: { repeat split; now left. }
    destruct (Js.startsWith format "pcm_"); reduce_run;
      [destruct (Stream.prependWavHeader _ _ _ _ _); reduce_run|];
      repeat split; now left.
  - destruct (body_text resp); repeat split; now left.
Qed.

(** The selector when the key is configured: the remote adapter first,
    the local one if it throws. *)
Lemma generate_remote_run (w : World) (rt : IAgentRuntime)
    (text : string) (k : nat) :
  Js.truthy (getSetting rt "ELEVENLABS_XI_API_KEY") = true ->
  generate w rt text k =
    let r := textToSpeech w rt text k in
    match outcome r with
    | Ok a =>
        {| outcome := Ok a;
           events := (prelude ++ events r)%list;
           clock := clock r |}
    | Throw e =>
        let r' := generateVitsAudio w rt text (clock r) in
        {| outcome := outcome r';
           events := (prelude ++ events r
                      ++ ConsoleError "Speech generation error:" e
                      :: ErrorLog "Falling back to VITS due to error:" e
                      :: events r')%list;
           clock := clock r' |}
    end.
Proof.
  intros Hkey. unfold generate. open_run. rewrite Hkey. reduce_run.
  destruct (textToSpeech w rt text k) as [[a|e] ev k']; reduce_run;
    [reflexivity|].
  destruct (generateVitsAudio w rt text k') as [o' ev' k'']; reflexivity.
Qed.

(** The selector when the key is not configured: the local adapter
    first, and the local adapter again if it throws. *)
Lemma generate_local_run (w : World) (rt : IAgentRuntime)
    (text : string) (k : nat) :
  Js.truthy (getSetting rt "ELEVENLABS_XI_API_KEY") = false ->
  generate w rt text k =
    let r := generateVitsAudio w rt text k in
    match outcome r with
    | Ok a =>
        {| outcome := Ok a;
           events := (prelude ++ Debug "Using VITS because:" :: events r)%list;
           clock := clock r |}
    | Throw e =>
        let r' := generateVitsAudio w rt text (clock r) in
        {| outcome := outcome r';
           events := (prelude ++ Debug "Using VITS because:" :: events r
                      ++ ConsoleError "Speech generation error:" e
                      :: ErrorLog "Falling back to VITS due to error:" e
                      :: events r')%list;
           clock := clock r' |}
    end.
Proof.
  intros Hkey. unfold generate. open_run. rewrite Hkey. reduce_run.
  destruct (generateVitsAudio w rt text k) as [[a|e] ev k']; reduce_run;
    [reflexivity|].
  destruct (generateVitsAudio w rt text k') as [o' ev' k'']; reflexivity.
Qed.


(* ================================================================== *)
(** ** The Selector *)
(* ================================================================== *)

(** C1: when the key is configured and the remote adapter throws, for
    whatever reason, the call ends as the local adapter does: with its
    stream if it succeeds, with its error if it throws; the remote
    error is only logged, and the engine is invoked once. *)
Theorem C1_remote_failure_falls_back (w : World) (rt : IAgentRuntime)
    (text : string) (k : nat) (e : error) :
  Js.truthy (getSetting rt "ELEVENLABS_XI_API_KEY") = true ->
  outcome (textToSpeech w rt text k) = Throw e ->
  let local :=
    generateVitsAudio w rt text (clock (textToSpeech w rt text k)) in
  let r := generate w rt text k in
  (forall s, outcome local = Ok s -> outcome r = Ok s)
  /\ (forall e', outcome local = Throw e' -> outcome r = Throw e')
  /\ In (ErrorLog "Falling back to VITS due to error:" e) (events r)
  /\ count is_synthesis (events r) = 1%nat.
Proof.
  intros Hkey Hremote local r. subst local r.
  rewrite (generate_remote_run w rt text k Hkey).
  cbv zeta. rewrite Hremote. cbn [outcome events].
  repeat split.
  - auto.
  - auto.
  - apply in_or_app. right. apply in_or_app. right. right. now left.
  - rewrite !count_app.
    destruct (textToSpeech_events w rt text k) as [-> _].
    change (count is_synthesis (ConsoleError ?a e :: ErrorLog ?b e :: ?l))
      with (count is_synthesis l).
    now destruct (generateVitsAudio_events w rt text
                    (clock (textToSpeech w rt text k))) as [-> _].
Qed.

Lemma C1_remote_failure_falls_back_witness :
  outcome (generate (Samples.world 401 [])
             (Samples.remote_runtime "mp3_44100_128") "hello" 0%nat)
  = Ok [[x52; x49]].
Proof.
  apply (C1_remote_failure_falls_back (Samples.world 401 [])
           (Samples.remote_runtime "mp3_44100_128") "hello" 0%nat
           (status_error 401 "denied"));
    reflexivity.
Defined.

(** C6, as stated, fails: without a key, a failure of the local adapter
    is not final.  The selector invokes the local adapter a second
    time, and here the second attempt succeeds. *)
Lemma C6_local_retry_counterexample :
  Js.truthy (getSetting Samples.local_runtime "ELEVENLABS_XI_API_KEY") = false
  /\ outcome (generateVitsAudio (Samples.world 200 [0%nat])
                Samples.local_runtime "hello" 0%nat)
     = Throw Samples.engine_down
  /\ outcome (generate (Samples.world 200 [0%nat])
                Samples.local_runtime "hello" 0%nat)
     <> Throw Samples.engine_down
  /\ count is_synthesis
       (events (generate (Samples.world 200 [0%nat])
                  Samples.local_runtime "hello" 0%nat)) = 2%nat.
Proof. repeat split. discriminate. Qed.

(** C6 (amended): without a key the selector invokes the local adapter
    directly and never the remote one; if that attempt throws, the
    error is logged and the local adapter is invoked once more, and
    the outcome of this second attempt is the outcome of the call. *)
Theorem C6_local_only_retried_once (w : World) (rt : IAgentRuntime)
    (text : string) (k : nat) :
  Js.truthy (getSetting rt "ELEVENLABS_XI_API_KEY") = false ->
  let first := generateVitsAudio w rt text k in
  let second := generateVitsAudio w rt text (clock first) in
  let r := generate w rt text k in
  count is_remote (events r) = 0%nat
  /\ (forall s, outcome first = Ok s ->
        outcome r = Ok s /\ count is_synthesis (events r) = 1%nat)
  /\ (forall e, outcome first = Throw e ->
        outcome r = outcome second
        /\ count is_synthesis (events r) = 2%nat
        /\ In (ErrorLog "Falling back to VITS due to error:" e) (events r)).
Proof.
  intros Hkey first second r. subst first second r.
  rewrite (generate_local_run w rt text k Hkey). cbv zeta.
  destruct (generateVitsAudio_events w rt text k) as [Hs1 Hr1].
  destruct (generateVitsAudio_events w rt text
              (clock (generateVitsAudio w rt text k))) as [Hs2 Hr2].
  destruct (outcome (generateVitsAudio w rt text k)) as [a|e0] eqn:E;
    cbn [outcome events].
  - split; [|split; [intros s [= <-]; split | discriminate]].
    + rewrite count_app.
      change (count is_remote (Debug ?m :: ?l)) with (count is_remote l).
      now rewrite Hr1.
    + reflexivity.
    + rewrite count_app.
      change (count is_synthesis (Debug ?m :: ?l)) with (count is_synthesis l).
      now rewrite Hs1.
  - split; [|split; [discriminate | intros e [= <-]; repeat split]].
    + rewrite count_app.
      change (count is_remote (Debug ?m :: ?l)) with (count is_remote l).
      rewrite count_app, Hr1.
      change (count is_remote (ConsoleError ?a e0 :: ErrorLog ?b e0 :: ?l))
        with (count is_remote l).
      now rewrite Hr2.
    + rewrite count_app.
      change (count is_synthesis (Debug ?m :: ?l)) with (count is_synthesis l).
      rewrite count_app, Hs1.
      change (count is_synthesis (ConsoleError ?a e0 :: ErrorLog ?b e0 :: ?l))
        with (count is_synthesis l).
      now rewrite Hs2.
    + apply in_or_app. right. right.
      apply in_or_app. right. right. now left.
Qed.

Lemma C6_local_only_retried_once_witness :
  count is_remote
    (events (generate (Samples.world 200 [0%nat; 1%nat])
               Samples.local_runtime "hello" 0%nat)) = 0%nat.
Proof.
  apply (C6_local_only_retried_once (Samples.world 200 [0%nat; 1%nat])
           Samples.local_runtime "hello" 0%nat).
  reflexivity.
Defined.

(** C9: the resolved configuration prefers the remote provider (it has
    [useVits] false) exactly when the API key setting holds a value;
    and the choice is made anew from the settings of each request: in
    a call that follows another one made under other settings, the
    remote adapter is entered exactly when the key is configured in
    the settings of that call. *)
Theorem C9_prefer_remote_iff_key (w : World) (rt1 rt2 : IAgentRuntime)
    (text1 text2 : string) (k : nat) :
  (exists vs, outcome (getVoiceSettings rt2 k) = Ok vs
              /\ (negb (useVits vs) = true <-> has_api_key rt2))
  /\ let first := generate w rt1 text1 k in
     let second := generate w rt2 text2 (clock first) in
     (In Validated (events second) <-> has_api_key rt2).
Proof.
  split.
  - eexists. split; [reflexivity|]. cbn [useVits].
    rewrite negb_involutive. apply truthy_has_api_key.
  - cbv zeta. set (k' := clock (generate w rt1 text1 k)).
    rewrite <- truthy_has_api_key.
    destruct (Js.truthy (getSetting rt2 "ELEVENLABS_XI_API_KEY")) eqn:Hkey.
    + split; [reflexivity | intros _].
      rewrite (generate_remote_run w rt2 text2 k' Hkey). cbv zeta.
      destruct (textToSpeech_events w rt2 text2 k') as [_ [Hin _]].
      destruct (outcome (textToSpeech w rt2 text2 k')); cbn [events];
        apply in_or_app; right; [exact Hin|].
      apply in_or_app. now left.
    + split; [intros Hin; exfalso | discriminate].
      pose proof (C := count_zero_not_in is_remote).
      revert Hin. apply C; [|reflexivity].
      pose proof (generate_local_run w rt2 text2 k' Hkey) as E.
      cbv zeta in E. rewrite E. clear E.
      destruct (generateVitsAudio_events w rt2 text2 k') as [_ Hr1].
      destruct (generateVitsAudio_events w rt2 text2
                  (clock (generateVitsAudio w rt2 text2 k'))) as [_ Hr2].
      destruct (outcome (generateVitsAudio w rt2 text2 k')) as [a|e0];
        cbn [events]; rewrite count_app;
        change (count is_remote (Debug ?m :: ?l)) with (count is_remote l).
      * now rewrite Hr1.
      * rewrite count_app, Hr1.
        change (count is_remote (ConsoleError ?a e0 :: ErrorLog ?b e0 :: ?l))
          with (count is_remote l).
        now rewrite Hr2.
Qed.


(* ================================================================== *)
(** ** The Remote Adapter *)
(* ================================================================== *)

Lemma bytes_readable_of (buffer : Buffer) :
  Stream.bytes (readable_of buffer) = buffer.
Proof.
  unfold readable_of. rewrite bytes_push. reflexivity.
Qed.

(** The run of the remote adapter, case by case. *)
Lemma textToSpeech_run (w : World) (rt : IAgentRuntime) (text : string)
    (k : nat) :
  textToSpeech w rt text k =
  match validateNodeConfig_at w k rt with
  | Throw e =>
      {| outcome := Throw e; events := [Validated]; clock := S k |}
  | Ok _ =>
      match fetch_at w (S k) (sent_request rt text) with
      | Throw e => failed_request rt text k e
      | Ok resp =>
          if ok resp
          then
            match body_arrayBuffer resp with
            | Throw e => failed_request rt text k e
            | Ok buffer =>
                match getSetting rt "ELEVENLABS_OUTPUT_FORMAT" with
                | None => failed_request rt text k null_startsWith
                | Some format =>
                    if Js.startsWith format "pcm_"
                    then
                      match
                        Stream.prependWavHeader (readable_of buffer)
                          (Z.of_nat (List.length buffer))
                          (Js.parseInt (Js.substring_from 4 format)) 1 16
                      with
                      | Ok stream => delivered rt text k stream
                      | Throw e => failed_request rt text k e
                      end
                    else delivered rt text k (readable_of buffer)
                end
            end
          else
            match body_text resp with
            | Throw e => failed_request rt text k e
            | Ok errorBodyString =>
                failed_request rt text k
                  (status_error (status resp) errorBodyString)
            end
      end
  end.
Proof.
  unfold textToSpeech, failed_request, delivered. open_run.
  fold (sent_request rt text).
  destruct (validateNodeConfig_at w k rt) as [[]|e0]; reduce_run;
    [|reflexivity].
  destruct (fetch_at w (S k) (sent_request rt text)) as [resp|e1];
    reduce_run; [|reflexivity].
  destruct (ok resp); reduce_run.
  - destruct (body_arrayBuffer resp) as [buffer|e2]; reduce_run;
      [|reflexivity].
    destruct (getSetting rt "ELEVENLABS_OUTPUT_FORMAT") as [format|];
      reduce_run; [|reflexivity].
    destruct (Js.startsWith format "pcm_"); reduce_run; [|reflexivity].
    destruct (Stream.prependWavHeader _ _ _ _ _); reflexivity.
  - destruct (body_text resp); reflexivity.
Qed.

(** The bytes of a body wrapped by the composer. *)
Lemma prependWavHeader_body (buffer : Buffer) (s : Js.number)
    (header : Buffer) :
  AudioUtils.getWavHeader (Z.of_nat (List.length buffer)) s 1 16 = Ok header ->
  exists stream,
    Stream.prependWavHeader (readable_of buffer)
      (Z.of_nat (List.length buffer)) s 1 16 = Ok stream
    /\ Stream.bytes stream
       = match buffer with
         | [] => []
         | _ => (header ++ buffer)%list
         end.
Proof.
  intros Hheader. destruct buffer as [|x buffer].
  - unfold Stream.prependWavHeader. rewrite Hheader.
    eexists. split; reflexivity.
  - unfold readable_of, Stream.push. cbn [app].
    rewrite (prependWavHeader_chunks _ _ _ _ _ _ header Hheader).
    eexists. split; [reflexivity|].
    unfold Stream.bytes. cbn [filter nonempty].
    change (List.concat [?h; ?l]) with (h ++ l ++ [])%list.
    now rewrite app_nil_r.
Qed.




(** C7, as stated, fails in its "only if" part.  The adapter also fails
    when the validation of the configuration rejects the settings: no
    request is sent, and the provider would have answered 200.  And
    when validation lets a missing output format through, the adapter
    fails after a 200 answer whose body was read, on [startsWith]. *)
Lemma C7_validation_counterexample :
  outcome (textToSpeech (Samples.misconfigured 200)
             (Samples.remote_runtime "mp3_44100_128") "hello" 0%nat)
  = Throw Samples.config_error
  /\ count is_fetch
       (events (textToSpeech (Samples.misconfigured 200)
                  (Samples.remote_runtime "mp3_44100_128") "hello" 0%nat))
     = 0%nat
  /\ fetch_at (Samples.misconfigured 200) 1%nat
       (sent_request (Samples.remote_runtime "mp3_44100_128") "hello")
     = Ok (Samples.response 200)
  /\ outcome (textToSpeech (Samples.world 200 [])
                Samples.unformatted_runtime "hello" 0%nat)
     = Throw null_startsWith
  /\ fetch_at (Samples.world 200 []) 1%nat
       (sent_request Samples.unformatted_runtime "hello")
     = Ok (Samples.response 200)
  /\ ok (Samples.response 200) = true
  /\ body_arrayBuffer (Samples.response 200) = Ok Samples.body.
Proof. repeat split. Qed.

(** C7 (amended): when validation has passed and the output format is
    set, the adapter fails exactly when the transport throws (the
    request, or the reading of the body), or the status is not a
    success, or the format is a [pcm_] tag and the framer rejects the
    parameters of the header; on a status that is not a success the
    error thrown carries the status code and the body text; and one
    request is sent, never a second. *)
Theorem C7_remote_failure_causes (w : World) (rt : IAgentRuntime)
    (text : string) (k : nat) (format : string) :
  validateNodeConfig_at w k rt = Ok tt ->
  getSetting rt "ELEVENLABS_OUTPUT_FORMAT" = Some format ->
  let http := fetch_at w (S k) (sent_request rt text) in
  let r := textToSpeech w rt text k in
  ((exists e, outcome r = Throw e) <->
     (exists e, http = Throw e)
     \/ (exists resp, http = Ok resp /\ ok resp = false)
     \/ (exists resp e, http = Ok resp /\ body_arrayBuffer resp = Throw e)
     \/ (exists resp buffer e,
           http = Ok resp /\ ok resp = true
           /\ body_arrayBuffer resp = Ok buffer
           /\ Js.startsWith format "pcm_" = true
           /\ AudioUtils.getWavHeader (Z.of_nat (List.length buffer))
                (Js.parseInt (Js.substring_from 4 format)) 1 16 = Throw e))
  /\ (forall resp errorBodyString,
        http = Ok resp -> ok resp = false ->
        body_text resp = Ok errorBodyString ->
        outcome r = Throw (status_error (status resp) errorBodyString)
        /\ message (status_error (status resp) errorBodyString) =
           "Received status " ++ NilZero.string_of_int (Z.to_int (status resp))
           ++ " from Eleven Labs API: " ++ errorBodyString)
  /\ count is_fetch (events r) = 1%nat.
Proof.
  intros Hv Hformat http r. subst http r.
  split; [|split].
  - rewrite textToSpeech_run, Hv.
    destruct (fetch_at w (S k) (sent_request rt text)) as [resp|e1].
    2: { split; [intros _; left; now exists e1 | intros _; now exists e1]. }
    destruct (ok resp) eqn:Hok.
    + destruct (body_arrayBuffer resp) as [buffer|e2] eqn:Hb.
      2: { split; [intros _ | intros _; now exists e2].
           right. right. left. exists resp, e2. now split. }
      rewrite Hformat.
      destruct (Js.startsWith format "pcm_") eqn:Hpcm.
      * unfold Stream.prependWavHeader.
        destruct (AudioUtils.getWavHeader (Z.of_nat (List.length buffer))
                    (Js.parseInt (Js.substring_from 4 format)) 1 16)
          as [header|e3] eqn:Hheader.
        -- split; [intros [e He]; discriminate|].
           intros [[e He] | [[resp' [He Hok']] | [[resp' [e [He Hb']]]
                  | [resp' [buffer' [e [He [_ [Hb' [_ Hh]]]]]]]]]].
           ++ discriminate.
           ++ injection He as <-. congruence.
           ++ injection He as <-. congruence.
           ++ injection He as <-. rewrite Hb in Hb'.
              injection Hb' as <-. congruence.
        -- split; [intros _ | intros _; now exists e3].
           right. right. right. exists resp, buffer, e3.
           repeat split; assumption.
      * split; [intros [e He]; discriminate|].
        intros [[e He] | [[resp' [He Hok']] | [[resp' [e [He Hb']]]
               | [resp' [buffer' [e [He [_ [_ [Hpcm' _]]]]]]]]]].
        -- discriminate.
        -- injection He as <-. congruence.
        -- injection He as <-. congruence.
        -- discriminate.
    + split.
      * intros _. right. left. exists resp. now split.
      * intros _.
        destruct (body_text resp); eexists; reflexivity.
  - intros resp errorBodyString Hf Hok Ht. split; [|reflexivity].
    rewrite textToSpeech_run, Hv, Hf, Hok, Ht. reflexivity.
  - now apply textToSpeech_events.
Qed.

Lemma C7_remote_failure_causes_witness :
  outcome (textToSpeech (Samples.world 401 [])
             (Samples.remote_runtime "mp3_44100_128") "hello" 0%nat)
  = Throw {| name := "Error";
             message := "Received status 401 from Eleven Labs API: denied" |}.
Proof.
  destruct (C7_remote_failure_causes (Samples.world 401 [])
              (Samples.remote_runtime "mp3_44100_128") "hello" 0%nat
              "mp3_44100_128" eq_refl eq_refl) as [_ [Hstatus _]].
  apply (Hstatus (Samples.response 401) "denied"); reflexivity.
Defined.

(* ================================================================== *)
(** ** The Local Adapter *)
(* ================================================================== *)


(** The run of [processVitsAudio] on raw audio whose buffer holds
    whole floats and whose header the framer returns. *)
Lemma processVitsAudio_raw (channel : Pcm.Channel)
    (others : list Pcm.Channel) (sampleRate : Js.number) (k : nat)
    (floatArray : Pcm.Float32Array) (header : Buffer) :
  Pcm.whole (Pcm.buffer channel) = Ok floatArray ->
  AudioUtils.getWavHeader (2 * Z.of_nat (List.length floatArray))
    sampleRate 1 16 = Ok header ->
  outcome (processVitsAudio
             (IsObject (Some (channel :: others)) (Some sampleRate)) k)
  = Ok [(header ++ Pcm.Int16Array_bytes (Pcm.convert floatArray))%list].
Proof.
  intros Hwhole Hheader. unfold processVitsAudio. open_run.
  rewrite Hwhole. reduce_run.
  rewrite convert_length, (Z.mul_comm _ 2), Hheader. reflexivity.
Qed.




(* ================================================================== *)
(** ** Further properties of the Stream Composer *)
(* ================================================================== *)

(** X1: whatever the source, what follows the first 44 bytes of the
    composed output is exactly the bytes of the source; the output has
    no byte at all for a source without chunk, and 44 bytes more than
    the source otherwise. *)
Theorem X1_payload_follows_header (src : Stream.Readable)
    (a : Z) (s : Js.number) (c b : Z) (header : Buffer) :
  AudioUtils.getWavHeader a s c b = Ok header ->
  exists out,
    Stream.prependWavHeader src a s c b = Ok out
    /\ skipn 44 (Stream.bytes out) = Stream.bytes src
    /\ List.length (Stream.bytes out)
       = match src with
         | [] => 0%nat
         | _ => (44 + List.length (Stream.bytes src))%nat
         end.
Proof.
  intros Hheader.
  destruct (getWavHeader_ok a s c b header Hheader) as [_ [Hlen _]].
  destruct src as [|d src].
  - unfold Stream.prependWavHeader. rewrite Hheader.
    eexists. repeat split.
  - rewrite (prependWavHeader_chunks d src a s c b header Hheader).
    eexists. split; [reflexivity|].
    change (Stream.bytes (?h :: ?l)) with (h ++ Stream.bytes l)%list.
    rewrite bytes_filter_nonempty. split.
    + now apply skipn_header.
    + now rewrite length_app, Hlen.
Qed.

Lemma X1_payload_follows_header_witness :
  exists out,
    Stream.prependWavHeader [[x01]; []; [x02]] 2 (Js.Int 8000) 1 16 = Ok out
    /\ skipn 44 (Stream.bytes out) = [x01; x02]
    /\ List.length (Stream.bytes out) = 46%nat.
Proof.
  apply (X1_payload_follows_header [[x01]; []; [x02]] 2 (Js.Int 8000) 1 16
           (AudioUtils.layout 2 8000 1 16)).
  reflexivity.
Defined.

(** X2: the composer forwards as it goes: once a first chunk has come,
    the output for a source continued by further chunks is the output
    for the source so far, followed by the further non-empty chunks;
    nothing already pushed is changed and no second header appears. *)
Theorem X2_output_grows_by_appending (src more : Stream.Readable)
    (a : Z) (s : Js.number) (c b : Z) (header : Buffer) :
  src <> [] ->
  AudioUtils.getWavHeader a s c b = Ok header ->
  exists out,
    Stream.prependWavHeader src a s c b = Ok out
    /\ Stream.prependWavHeader (src ++ more)%list a s c b
       = Ok (out ++ filter nonempty more)%list
    /\ Stream.bytes (out ++ filter nonempty more)%list
       = (Stream.bytes out ++ Stream.bytes more)%list.
Proof.
  intros Hsrc Hheader. destruct src as [|d src]; [congruence|].
  eexists. split; [apply prependWavHeader_chunks; exact Hheader|]. split.
  - change ((d :: src) ++ more)%list with (d :: (src ++ more))%list.
    rewrite (prependWavHeader_chunks _ _ _ _ _ _ header Hheader).
    change (d :: (src ++ more))%list with ((d :: src) ++ more)%list.
    now rewrite filter_app.
  - unfold Stream.bytes. rewrite concat_app.
    f_equal. apply bytes_filter_nonempty.
Qed.

Lemma X2_output_grows_by_appending_witness :
  exists out,
    Stream.prependWavHeader [[x01]] 2 (Js.Int 8000) 1 16 = Ok out
    /\ Stream.prependWavHeader ([[x01]] ++ [[]; [x02]])%list
         2 (Js.Int 8000) 1 16
       = Ok (out ++ [[x02]])%list
    /\ Stream.bytes (out ++ [[x02]])%list
       = (Stream.bytes out ++ [x02])%list.
Proof.
  apply (X2_output_grows_by_appending [[x01]] [[]; [x02]] 2 (Js.Int 8000)
           1 16 (AudioUtils.layout 2 8000 1 16)).
  - discriminate.
  - reflexivity.
Defined.

(* ================================================================== *)
(** ** Further properties of the Local Adapter *)
(* ================================================================== *)

(** X5: for a raw result whose first channel lies on a buffer of [M]
    whole floats (the samples of the channel itself when it spans its
    buffer) and whose header the framer returns, the stream is one
    chunk of [44 + 2 * M] bytes, and what follows its first 44 bytes
    reads back, as little-endian signed 16-bit integers, as the
    conversion of these floats; a buffer without float gives the 44
    header bytes alone. *)
Theorem X5_raw_audio_payload_decodes (channel : Pcm.Channel)
    (others : list Pcm.Channel) (sampleRate : Js.number) (k : nat)
    (header : Buffer) :
  Pcm.spare (Pcm.buffer channel) = 0%nat ->
  AudioUtils.getWavHeader
    (2 * Z.of_nat (List.length (Pcm.floats (Pcm.buffer channel))))
    sampleRate 1 16 = Ok header ->
  exists chunk,
    outcome (processVitsAudio
               (IsObject (Some (channel :: others)) (Some sampleRate)) k)
    = Ok [chunk]
    /\ List.length chunk
       = (44 + 2 * List.length (Pcm.floats (Pcm.buffer channel)))%nat
    /\ decodeInt16LE (skipn 44 chunk)
       = Pcm.convert (Pcm.floats (Pcm.buffer channel)).
Proof.
  intros Hspare Hheader.
  destruct (getWavHeader_ok _ _ _ _ header Hheader) as [_ [Hlen _]].
  eexists. split; [|split].
  - apply processVitsAudio_raw; [|exact Hheader].
    unfold Pcm.whole. now rewrite Hspare.
  - now rewrite length_app, Hlen, Int16Array_bytes_length, convert_length.
  - rewrite skipn_header by exact Hlen. apply decode_convert.
Qed.

Lemma X5_raw_audio_payload_decodes_witness :
  exists chunk,
    outcome (processVitsAudio
               (IsObject (Some [Samples.view]) (Some (Js.Int 22050))) 0%nat)
    = Ok [chunk]
    /\ List.length chunk = 48%nat
    /\ decodeInt16LE (skipn 44 chunk) = [16384; 32767].
Proof.
  apply (X5_raw_audio_payload_decodes Samples.view [] (Js.Int 22050) 0%nat
           (AudioUtils.layout 4 22050 1 16)); reflexivity.
Defined.

Lemma or_default_nonempty (a : Js.value) (d : string) :
  d <> "" -> Js.or_default a d <> "".
Proof.
  intros Hd. unfold Js.or_default.
  destruct a as [s|]; [|exact Hd].
  destruct (String.eqb_spec s ""); assumption.
Qed.

Lemma or_default_falsy (a : Js.value) (d : string) :
  Js.truthy a = false -> Js.or_default a d = d.
Proof.
  unfold Js.truthy, Js.or_default. destruct a as [s|]; [|reflexivity].
  destruct (String.eqb s ""); [reflexivity | discriminate].
Qed.

(** The one engine invocation of the local adapter. *)
Lemma generateVitsAudio_synthesis (w : World) (rt : IAgentRuntime)
    (text : string) (k : nat) :
  filter is_synthesis (events (generateVitsAudio w rt text k))
  = [Synthesized text
       (Js.or_default
          (Js.or (Js.or (prop (character_voice rt) model)
                        (prop (character_voice rt) url))
                 (getSetting rt "VITS_VOICE"))
          "en_US-hfc_female-medium")].
Proof.
  unfold generateVitsAudio, processVitsAudio. open_run.
  destruct (synthesize_at w k text _) as [audio|e]; reduce_run;
    [|reflexivity].
  audio_cases audio; reflexivity.
Qed.

(** X6: the local adapter invokes the engine exactly once, with the
    text it was given and a voice name that is never empty; when
    neither the character's voice model, nor its voice url, nor the
    [VITS_VOICE] setting holds a value, the name is
    [en_US-hfc_female-medium]. *)
Theorem X6_engine_invoked_with_named_voice (w : World)
    (rt : IAgentRuntime) (text : string) (k : nat) :
  (exists voice,
     voice <> ""
     /\ filter is_synthesis (events (generateVitsAudio w rt text k))
        = [Synthesized text voice])
  /\ (Js.truthy (prop (character_voice rt) model) = false ->
      Js.truthy (prop (character_voice rt) url) = false ->
      Js.truthy (getSetting rt "VITS_VOICE") = false ->
      filter is_synthesis (events (generateVitsAudio w rt text k))
      = [Synthesized text "en_US-hfc_female-medium"]).
Proof.
  rewrite generateVitsAudio_synthesis. split.
  - eexists. split; [|reflexivity].
    apply or_default_nonempty. discriminate.
  - intros Hmodel Hurl Hsetting. unfold Js.or.
    rewrite Hmodel, Hurl. now rewrite or_default_falsy.
Qed.

Lemma X6_engine_invoked_with_named_voice_witness :
  filter is_synthesis
    (events (generateVitsAudio (Samples.world 200 [])
               Samples.local_runtime "hello" 0%nat))
  = [Synthesized "hello" "en_US-hfc_female-medium"].
Proof.
  apply (X6_engine_invoked_with_named_voice (Samples.world 200 [])
           Samples.local_runtime "hello" 0%nat); reflexivity.
Defined.

(** X7: a value set on the character, when it is a string that is not
    empty, wins over the runtime settings: the voice model for the
    engine's voice, and the provider's voice id, model and stability;
    the resolved model, stability and engine voice are never empty. *)
Theorem X7_character_overrides_settings (rt : IAgentRuntime) (k : nat) :
  exists vs,
    outcome (getVoiceSettings rt k) = Ok vs
    /\ clock (getVoiceSettings rt k) = k
    /\ (forall v m, character_voice rt = Some v -> model v = Some m ->
          m <> "" -> vitsVoice vs = m)
    /\ (forall el, character_elevenlabs rt = Some el ->
          (forall x, voiceId el = Some x -> x <> "" ->
             elevenlabsVoiceId vs = Some x)
          /\ (forall x, el_model el = Some x -> x <> "" ->
                elevenlabsModel vs = x)
          /\ (forall x, el_stability el = Some x -> x <> "" ->
                elevenlabsStability vs = x))
    /\ vitsVoice vs <> "" /\ elevenlabsModel vs <> ""
    /\ elevenlabsStability vs <> "".
Proof.
  eexists. split; [reflexivity|]. split; [reflexivity|].
  cbn [vitsVoice elevenlabsVoiceId elevenlabsModel elevenlabsStability].
  assert (T : forall x, x <> "" -> Js.truthy (Some x) = true).
  { intros x Hx. unfold Js.truthy.
    destruct (String.eqb_spec x ""); [contradiction | reflexivity]. }
  assert (D : forall x d, x <> "" -> Js.or_default (Some x) d = x).
  { intros x d Hx. unfold Js.or_default.
    destruct (String.eqb_spec x ""); [contradiction | reflexivity]. }
  split; [|split; [intros el Hel; repeat split | repeat split]].
  - intros v m Hv Hm Hne. rewrite Hv. cbn [prop]. rewrite Hm.
    unfold Js.or at 2. rewrite (T m Hne).
    unfold Js.or. rewrite (T m Hne). now apply D.
  - intros x Hx Hne. rewrite Hel. cbn [prop]. rewrite Hx.
    unfold Js.or. now rewrite (T x Hne).
  - intros x Hx Hne. rewrite Hel. cbn [prop]. rewrite Hx.
    unfold Js.or. rewrite (T x Hne). now apply D.
  - intros x Hx Hne. rewrite Hel. cbn [prop]. rewrite Hx.
    unfold Js.or. rewrite (T x Hne). now apply D.
  - apply or_default_nonempty. discriminate.
  - apply or_default_nonempty. discriminate.
  - apply or_default_nonempty. discriminate.
Qed.

Lemma X7_character_overrides_settings_witness :
  exists vs,
    outcome (getVoiceSettings voiced_runtime 0%nat) = Ok vs
    /\ vitsVoice vs = "en_US-amy-medium"
    /\ elevenlabsVoiceId vs = Some "voice-7".
Proof.
  destruct (X7_character_overrides_settings voiced_runtime 0%nat)
    as [vs [Hvs [_ [Hvoice [Hel _]]]]].
  exists vs. split; [exact Hvs|]. split.
  - eapply Hvoice; [reflexivity | reflexivity | discriminate].
  - eapply Hel; [reflexivity | reflexivity | discriminate].
Defined.


(* ================================================================== *)
(** ** Further properties of the Remote Adapter *)
(* ================================================================== *)

(** X8: when validation rejects the configuration, the remote adapter
    throws the validation error itself, without sending any request
    and without logging an API error; and a call of the selector with
    a key then ends as the local adapter does, still without any
    request. *)
Theorem X8_invalid_configuration_sends_nothing (w : World)
    (rt : IAgentRuntime) (text : string) (k : nat) (e : error) :
  validateNodeConfig_at w k rt = Throw e ->
  outcome (textToSpeech w rt text k) = Throw e
  /\ count is_fetch (events (textToSpeech w rt text k)) = 0%nat
  /\ count is_api_error_log (events (textToSpeech w rt text k)) = 0%nat
  /\ (Js.truthy (getSetting rt "ELEVENLABS_XI_API_KEY") = true ->
      outcome (generate w rt text k)
      = outcome (generateVitsAudio w rt text (S k))
      /\ count is_fetch (events (generate w rt text k)) = 0%nat).
Proof.
  intros Hv.
  assert (E : textToSpeech w rt text k
              = {| outcome := Throw e; events := [Validated];
                   clock := S k |})
    by (rewrite textToSpeech_run, Hv; reflexivity).
  rewrite E. split; [reflexivity|]. split; [reflexivity|].
  split; [reflexivity|]. intros Hkey. split.
  - rewrite (generate_remote_run w rt text k Hkey), E. reflexivity.
  - rewrite (generate_remote_run w rt text k Hkey), E.
    cbn [outcome events clock].
    assert (Hl : count is_fetch (events (generateVitsAudio w rt text (S k)))
                 = 0%nat).
    { unfold generateVitsAudio, processVitsAudio. open_run.
      destruct (synthesize_at w (S k) text _) as [audio|e']; reduce_run;
        [|reflexivity].
      audio_cases audio; reflexivity. }
    rewrite !count_app.
    change (count is_fetch (ConsoleError ?a e :: ErrorLog ?b e :: ?l))
      with (count is_fetch l).
    now rewrite Hl.
Qed.

Lemma X8_invalid_configuration_sends_nothing_witness :
  outcome (generate (Samples.misconfigured 200)
             (Samples.remote_runtime "pcm_24000") "hello" 0%nat)
  = Ok [[x52; x49]].
Proof.
  destruct (X8_invalid_configuration_sends_nothing
              (Samples.misconfigured 200)
              (Samples.remote_runtime "pcm_24000") "hello" 0%nat
              Samples.config_error eq_refl) as [_ [_ [_ Hgenerate]]].
  destruct (Hgenerate eq_refl) as [Houtcome _]. exact Houtcome.
Defined.

(** X9: once validation has passed, an error thrown by the remote
    adapter has been logged exactly once as an API error, with the very
    error that is thrown; a successful run logs no API error. *)
Theorem X9_remote_error_logged_once (w : World) (rt : IAgentRuntime)
    (text : string) (k : nat) :
  validateNodeConfig_at w k rt = Ok tt ->
  (forall e, outcome (textToSpeech w rt text k) = Throw e ->
     filter is_api_error_log (events (textToSpeech w rt text k))
     = [ErrorLog "ElevenLabs API error:" e])
  /\ (forall s, outcome (textToSpeech w rt text k) = Ok s ->
        filter is_api_error_log (events (textToSpeech w rt text k)) = []).
Proof.
  intros Hv. rewrite textToSpeech_run, Hv.
  destruct (fetch_at w (S k) (sent_request rt text)) as [resp|e1].
  2: { split; [intros e [= <-]; reflexivity | discriminate]. }
  destruct (ok resp).
  - destruct (body_arrayBuffer resp) as [buffer|e2].
    2: { split; [intros e [= <-]; reflexivity | discriminate]. }
    destruct (getSetting rt "ELEVENLABS_OUTPUT_FORMAT") as [format|].
    + destruct (Js.startsWith format "pcm_");
        [destruct (Stream.prependWavHeader _ _ _ _ _) as [stream|e3]|].
      * split; [discriminate | reflexivity].
      * split; [intros e [= <-]; reflexivity | discriminate].
      * split; [discriminate | reflexivity].
    + split; [intros e [= <-]; reflexivity | discriminate].
  - destruct (body_text resp) as [errorBodyString|e3];
      (split; [intros e [= <-]; reflexivity | discriminate]).
Qed.

Lemma X9_remote_error_logged_once_witness :
  filter is_api_error_log
    (events (textToSpeech (Samples.world 401 [])
               (Samples.remote_runtime "pcm_24000") "hello" 0%nat))
  = [ErrorLog "ElevenLabs API error:" (status_error 401 "denied")].
Proof.
  apply (X9_remote_error_logged_once (Samples.world 401 [])
           (Samples.remote_runtime "pcm_24000") "hello" 0%nat eq_refl).
  reflexivity.
Defined.

(** X10: a stream returned by the remote adapter always carries the
    body of a success answer: the body itself for a format that is not
    raw PCM; for a [pcm_] format a header the framer returned followed
    by the body, except that an empty body gives an empty stream,
    without header. *)
Theorem X10_remote_stream_carries_body (w : World) (rt : IAgentRuntime)
    (text : string) (k : nat) (stream : Stream.Readable) :
  outcome (textToSpeech w rt text k) = Ok stream ->
  exists resp buffer format,
    fetch_at w (S k) (sent_request rt text) = Ok resp
    /\ ok resp = true
    /\ body_arrayBuffer resp = Ok buffer
    /\ getSetting rt "ELEVENLABS_OUTPUT_FORMAT" = Some format
    /\ (Js.startsWith format "pcm_" = false -> Stream.bytes stream = buffer)
    /\ (Js.startsWith format "pcm_" = true ->
        exists header,
          AudioUtils.getWavHeader (Z.of_nat (List.length buffer))
            (Js.parseInt (Js.substring_from 4 format)) 1 16 = Ok header
          /\ Stream.bytes stream
             = match buffer with
               | [] => []
               | _ => (header ++ buffer)%list
               end).
Proof.
  rewrite textToSpeech_run.
  destruct (validateNodeConfig_at w k rt) as [[]|e0]; [|discriminate].
  destruct (fetch_at w (S k) (sent_request rt text)) as [resp|e1];
    [|discriminate].
  destruct (ok resp) eqn:Hok.
  2: { destruct (body_text resp); discriminate. }
  destruct (body_arrayBuffer resp) as [buffer|e2] eqn:Hb; [|discriminate].
  destruct (getSetting rt "ELEVENLABS_OUTPUT_FORMAT") as [format|];
    [|discriminate].
  destruct (Js.startsWith format "pcm_") eqn:Hpcm.
  - destruct (AudioUtils.getWavHeader (Z.of_nat (List.length buffer))
                (Js.parseInt (Js.substring_from 4 format)) 1 16)
      as [header|e3] eqn:Hheader.
    + destruct (prependWavHeader_body buffer _ header Hheader)
        as [wrapped [Hwrapped Hbytes]].
      rewrite Hwrapped. intros [= <-].
      exists resp, buffer, format.
      do 4 (split; [reflexivity || assumption|]).
      split; [congruence | intros _; now exists header].
    + unfold Stream.prependWavHeader. rewrite Hheader. discriminate.
  - intros [= <-]. exists resp, buffer, format.
    do 4 (split; [reflexivity || assumption|]).
    split; [intros _; apply bytes_readable_of | congruence].
Qed.

Lemma X10_remote_stream_carries_body_witness :
  exists resp buffer format,
    fetch_at (Samples.world 200 []) 1%nat
      (sent_request (Samples.remote_runtime "mp3_44100_128") "hello") = Ok resp
    /\ ok resp = true
    /\ body_arrayBuffer resp = Ok buffer
    /\ getSetting (Samples.remote_runtime "mp3_44100_128")
         "ELEVENLABS_OUTPUT_FORMAT" = Some format
    /\ (Js.startsWith format "pcm_" = false ->
        Stream.bytes [Samples.body] = buffer)
    /\ (Js.startsWith format "pcm_" = true ->
        exists header,
          AudioUtils.getWavHeader (Z.of_nat (List.length buffer))
            (Js.parseInt (Js.substring_from 4 format)) 1 16 = Ok header
          /\ Stream.bytes [Samples.body]
             = match buffer with
               | [] => []
               | _ => (header ++ buffer)%list
               end).
Proof.
  apply (X10_remote_stream_carries_body (Samples.world 200 [])
           (Samples.remote_runtime "mp3_44100_128") "hello" 0%nat
           [Samples.body]).
  reflexivity.
Defined.

(* ================================================================== *)
(** ** Further properties of the Selector *)
(* ================================================================== *)

(** The local adapter makes one external call and sends no request. *)
Lemma generateVitsAudio_clock (w : World) (rt : IAgentRuntime)
    (text : string) (k : nat) :
  clock (generateVitsAudio w rt text k) = S k
  /\ count is_fetch (events (generateVitsAudio w rt text k)) = 0%nat.
Proof.
  unfold generateVitsAudio, processVitsAudio. open_run.
  destruct (synthesize_at w k text _) as [audio|e]; reduce_run.
  - audio_cases audio; split; reflexivity.
  - split; reflexivity.
Qed.

(** The remote adapter makes one or two external calls, and sends at
    most one request. *)
Lemma textToSpeech_clock (w : World) (rt : IAgentRuntime)
    (text : string) (k : nat) :
  (k < clock (textToSpeech w rt text k) <= k + 2)%nat
  /\ (count is_fetch (events (textToSpeech w rt text k)) <= 1)%nat.
Proof.
  rewrite textToSpeech_run. unfold failed_request, delivered.
  destruct (validateNodeConfig_at w k rt) as [[]|e0];
    [|cbn; split; lia].
  destruct (fetch_at w (S k) (sent_request rt text)) as [resp|e1];
    [|cbn; split; lia].
  destruct (ok resp).
  - destruct (body_arrayBuffer resp) as [buffer|e2]; [|cbn; split; lia].
    destruct (getSetting rt "ELEVENLABS_OUTPUT_FORMAT") as [format|];
      [|cbn; split; lia].
    destruct (Js.startsWith format "pcm_");
      [destruct (Stream.prependWavHeader _ _ _ _ _)|];
      cbn -[Stream.prependWavHeader]; split; lia.
  - destruct (body_text resp); cbn; split; lia.
Qed.

(** X11: with a key, when the remote adapter succeeds the selector
    returns its stream and never invokes the engine; the call has sent
    exactly the one request and made two external calls. *)
Theorem X11_remote_success_skips_engine (w : World) (rt : IAgentRuntime)
    (text : string) (k : nat) (stream : Stream.Readable) :
  Js.truthy (getSetting rt "ELEVENLABS_XI_API_KEY") = true ->
  outcome (textToSpeech w rt text k) = Ok stream ->
  outcome (generate w rt text k) = Ok stream
  /\ count is_synthesis (events (generate w rt text k)) = 0%nat
  /\ filter is_fetch (events (generate w rt text k))
     = [Fetched (sent_request rt text)]
  /\ clock (generate w rt text k) = S (S k).
Proof.
  intros Hkey. rewrite (generate_remote_run w rt text k Hkey).
  cbv zeta. rewrite textToSpeech_run. unfold failed_request, delivered.
  destruct (validateNodeConfig_at w k rt) as [[]|e0]; [|discriminate].
  destruct (fetch_at w (S k) (sent_request rt text)) as [resp|e1];
    [|discriminate].
  destruct (ok resp).
  2: { destruct (body_text resp); discriminate. }
  destruct (body_arrayBuffer resp) as [buffer|e2]; [|discriminate].
  destruct (getSetting rt "ELEVENLABS_OUTPUT_FORMAT") as [format|];
    [|discriminate].
  destruct (Js.startsWith format "pcm_");
    [destruct (Stream.prependWavHeader _ _ _ _ _); [|discriminate]|];
    cbn [outcome events clock]; intros [= <-]; repeat split.
Qed.

Lemma X11_remote_success_skips_engine_witness :
  count is_synthesis
    (events (generate (Samples.world 200 [0%nat; 1%nat; 2%nat; 3%nat])
               (Samples.remote_runtime "mp3_44100_128") "hello" 0%nat))
  = 0%nat.
Proof.
  apply (X11_remote_success_skips_engine
           (Samples.world 200 [0%nat; 1%nat; 2%nat; 3%nat])
           (Samples.remote_runtime "mp3_44100_128") "hello" 0%nat
           [Samples.body]); reflexivity.
Defined.

(** X12: whatever happens, one call of the selector sends at most one
    request, invokes the engine at most twice, and makes between one
    and three external calls; after a request it invokes the engine at
    most once. *)
Theorem X12_selector_call_budget (w : World) (rt : IAgentRuntime)
    (text : string) (k : nat) :
  (count is_fetch (events (generate w rt text k)) <= 1)%nat
  /\ (count is_synthesis (events (generate w rt text k)) <= 2)%nat
  /\ (k < clock (generate w rt text k) <= k + 3)%nat
  /\ (count is_fetch (events (generate w rt text k))
      + count is_synthesis (events (generate w rt text k)) <= 2)%nat.
Proof.
  destruct (Js.truthy (getSetting rt "ELEVENLABS_XI_API_KEY")) eqn:Hkey.
  - rewrite (generate_remote_run w rt text k Hkey). cbv zeta.
    destruct (textToSpeech_clock w rt text k) as [Hclock Hfetch].
    destruct (textToSpeech_events w rt text k) as [Hsynth _].
    set (remote := textToSpeech w rt text k) in *.
    destruct (generateVitsAudio_events w rt text (clock remote))
      as [Hs _].
    destruct (generateVitsAudio_clock w rt text (clock remote))
      as [Hc Hf].
    destruct (outcome remote) as [stream|e]; cbn [outcome events clock].
    + rewrite !count_app. change (count is_fetch prelude) with 0%nat.
      change (count is_synthesis prelude) with 0%nat. lia.
    + rewrite !count_app. change (count is_fetch prelude) with 0%nat.
      change (count is_synthesis prelude) with 0%nat.
      change (count is_fetch (ConsoleError ?a e :: ErrorLog ?b e :: ?l))
        with (count is_fetch l).
      change (count is_synthesis (ConsoleError ?a e :: ErrorLog ?b e :: ?l))
        with (count is_synthesis l).
      lia.
  - rewrite (generate_local_run w rt text k Hkey). cbv zeta.
    destruct (generateVitsAudio_events w rt text k) as [Hs1 _].
    destruct (generateVitsAudio_clock w rt text k) as [Hc1 Hf1].
    set (first := generateVitsAudio w rt text k) in *.
    destruct (generateVitsAudio_events w rt text (clock first))
      as [Hs2 _].
    destruct (generateVitsAudio_clock w rt text (clock first))
      as [Hc2 Hf2].
    destruct (outcome first) as [stream|e]; cbn [outcome events clock];
      rewrite !count_app; change (count is_fetch prelude) with 0%nat;
      change (count is_synthesis prelude) with 0%nat;
      change (count is_fetch (Debug ?m :: ?l)) with (count is_fetch l);
      change (count is_synthesis (Debug ?m :: ?l))
        with (count is_synthesis l).
    + lia.
    + rewrite !count_app.
      change (count is_fetch (ConsoleError ?a e :: ErrorLog ?b e :: ?l))
        with (count is_fetch l).
      change (count is_synthesis (ConsoleError ?a e :: ErrorLog ?b e :: ?l))
        with (count is_synthesis l).
      lia.
Qed.

(** An engine answer that the adapter turns into a stream makes the
    local adapter succeed. *)
Lemma generateVitsAudio_succeeds (w : World) (rt : IAgentRuntime)
    (text : string) (k : nat) :
  (forall voice, exists audio,
      synthesize_at w k text voice = Ok audio /\ supported audio = true) ->
  exists stream, outcome (generateVitsAudio w rt text k) = Ok stream.
Proof.
  intros Hengine. unfold generateVitsAudio. open_run.
  match goal with
  | |- context [synthesize_at w k text ?v] =>
      destruct (Hengine v) as [audio [-> Hsupported]]
  end.
  reduce_run.
  assert (Hstream : exists stream,
             outcome (processVitsAudio audio (S k)) = Ok stream).
  { destruct audio as [b|[[|channel channels]|] [rate|]];
      try discriminate; [eexists; reflexivity|].
    cbn [supported] in Hsupported. apply andb_prop in Hsupported.
    destruct Hsupported as [Hspare Hvalid].
    destruct (getWavHeader_valid _ _ _ _ Hvalid) as [header Hheader].
    eexists. apply processVitsAudio_raw; [|exact Hheader].
    unfold Pcm.whole. now rewrite Hspare. }
  destruct Hstream as [stream Hstream].
  destruct (processVitsAudio audio (S k)) as [o ev k'].
  cbn [outcome] in Hstream |- *. now exists stream.
Qed.

(** X13: if the engine answers every invocation with a buffer, or with
    raw audio whose first channel lies on a buffer of whole floats and
    whose header parameters the framer accepts, the selector never
    throws: with or without a key, and whatever the provider answers,
    the call returns a stream. *)
Theorem X13_reliable_engine_never_throws (w : World) (rt : IAgentRuntime)
    (text : string) (k : nat) :
  (forall j voice, exists audio,
      synthesize_at w j text voice = Ok audio /\ supported audio = true) ->
  exists stream, outcome (generate w rt text k) = Ok stream.
Proof.
  intros Hengine.
  destruct (Js.truthy (getSetting rt "ELEVENLABS_XI_API_KEY")) eqn:Hkey.
  - rewrite (generate_remote_run w rt text k Hkey). cbv zeta.
    destruct (outcome (textToSpeech w rt text k)) as [stream|e];
      cbn [outcome].
    + now exists stream.
    + apply generateVitsAudio_succeeds. intros voice. apply Hengine.
  - rewrite (generate_local_run w rt text k Hkey). cbv zeta.
    destruct (outcome (generateVitsAudio w rt text k)) as [stream|e];
      cbn [outcome].
    + now exists stream.
    + apply generateVitsAudio_succeeds. intros voice. apply Hengine.
Qed.

Lemma X13_reliable_engine_never_throws_witness :
  exists stream,
    outcome (generate (Samples.world 503 [])
               (Samples.remote_runtime "pcm_24000") "hello" 0%nat)
    = Ok stream.
Proof.
  apply (X13_reliable_engine_never_throws (Samples.world 503 [])
           (Samples.remote_runtime "pcm_24000") "hello" 0%nat).
  intros j voice. exists (IsBuffer [x52; x49]). split; reflexivity.
Defined.


(* ================================================================== *)
(** ** The sample rate read from a format tag *)
(* ================================================================== *)

Lemma digits_decimal_acc (d : Decimal.uint) :
  forall acc : positive,
    Js.digits 10 (Some (Z.pos acc)) (NilEmpty.string_of_uint d)
    = Some (Z.pos (Pos.of_uint_acc d acc)).
Proof.
  induction d as [|d IH|d IH|d IH|d IH|d IH|d IH|d IH|d IH|d IH|d IH];
    intros acc; [reflexivity|..];
    cbn [NilEmpty.string_of_uint Js.digits Pos.of_uint_acc];
    match goal with
    | |- context [Js.digit_value 10 ?c] =>
        let v := eval cbv in (Js.digit_value 10 c) in
        change (Js.digit_value 10 c) with v
    end;
    cbv iota beta; rewrite <- IH; do 2 f_equal; lia.
Qed.

Lemma digits_decimal_zero (d : Decimal.uint) :
  Js.digits 10 (Some 0) (NilEmpty.string_of_uint d)
  = Some (Z.of_N (Pos.of_uint d)).
Proof.
  induction d as [|d IH|d IH|d IH|d IH|d IH|d IH|d IH|d IH|d IH|d IH];
    [reflexivity | exact IH |..];
    cbn [NilEmpty.string_of_uint Js.digits Pos.of_uint];
    match goal with
    | |- context [Js.digit_value 10 ?c] =>
        let v := eval cbv in (Js.digit_value 10 c) in
        change (Js.digit_value 10 c) with v
    end;
    cbv iota beta; apply digits_decimal_acc.
Qed.

Lemma substring_whole (s : string) :
  String.substring 0 (String.length s) s = s.
Proof. induction s as [|c s IH]; simpl; [reflexivity | now rewrite IH]. Qed.

Lemma prefix_empty (s : string) : String.prefix "" s = true.
Proof. destruct s; reflexivity. Qed.

Lemma digits_decimal (d : Decimal.uint) :
  d <> Decimal.Nil ->
  Js.digits 10 None (NilEmpty.string_of_uint d)
  = Some (Z.of_N (Pos.of_uint d)).
Proof.
  destruct d as [|d|d|d|d|d|d|d|d|d|d]; [congruence|..]; intros _;
    cbn [NilEmpty.string_of_uint Js.digits Pos.of_uint];
    match goal with
    | |- context [Js.digit_value 10 ?c] =>
        let v := eval cbv in (Js.digit_value 10 c) in
        change (Js.digit_value 10 c) with v
    end;
    cbv iota beta;
    [apply digits_decimal_zero | apply digits_decimal_acc ..].
Qed.

Ltac parse_decimal H :=
  cbn [NilEmpty.string_of_uint] in H |- *;
  unfold Js.parseInt; cbn [Js.skip_spaces];
  repeat match goal with
         | |- context [Js.is_space ?c] =>
             let v := eval cbv in (Js.is_space c) in
             change (Js.is_space c) with v
         end;
  cbn -[Js.digits Js.of_integer Z.of_N Pos.of_uint];
  rewrite H; reflexivity.

(** Reading back a number written in decimal. *)
Lemma parseInt_uint (d : Decimal.uint) :
  d <> Decimal.Nil ->
  Js.parseInt (NilEmpty.string_of_uint d)
  = Js.of_integer (Z.of_N (Pos.of_uint d)).
Proof.
  intros Hd. pose proof (digits_decimal d Hd) as Hdigits.
  destruct d as [|d|d|d|d|d|d|d|d|d|d]; [congruence|..].
  - destruct d as [|d|d|d|d|d|d|d|d|d|d]; parse_decimal Hdigits.
  - parse_decimal Hdigits.
  - parse_decimal Hdigits.
  - parse_decimal Hdigits.
  - parse_decimal Hdigits.
  - parse_decimal Hdigits.
  - parse_decimal Hdigits.
  - parse_decimal Hdigits.
  - parse_decimal Hdigits.
  - parse_decimal Hdigits.
Qed.

Lemma parseInt_decimal (n : N) :
  Js.parseInt (decimal n) = Js.of_integer (Z.of_N n).
Proof.
  unfold decimal. rewrite <- (DecimalN.Unsigned.of_to n) at 2.
  unfold N.of_uint.
  destruct (N.to_uint n) as [|d|d|d|d|d|d|d|d|d|d] eqn:E;
    [reflexivity|..];
    (change (NilZero.string_of_uint ?u) with (NilEmpty.string_of_uint u);
     apply parseInt_uint; discriminate).
Qed.

(** A sample rate the framer accepts is positive and below 2^32. *)
Lemma valid_rate (a rate c b : Z) :
  AudioUtils.valid a (Js.Int rate) c b = true -> 0 < rate < 2 ^ 32.
Proof.
  unfold AudioUtils.valid, AudioUtils.fits. intros H.
  repeat (apply andb_prop in H; destruct H as [H ?]).
  repeat match goal with
         | H : (_ <? _) = true |- _ => apply Z.ltb_lt in H
         | H : (_ <=? _) = true |- _ => apply Z.leb_le in H
         end.
  lia.
Qed.

(** X14: for every natural number [n] that the framer accepts as a
    sample rate, the format tag [pcm_] followed by [n] in decimal makes
    a successful remote call return the body wrapped by the composer
    with sample rate [n]: the header for that rate followed by the
    body. *)
Theorem X14_pcm_tag_gives_its_rate (w : World) (rt : IAgentRuntime)
    (text : string) (k : nat) (resp : Response) (buffer : Buffer) (n : N)
    (header : Buffer) :
  validateNodeConfig_at w k rt = Ok tt ->
  fetch_at w (S k) (sent_request rt text) = Ok resp ->
  ok resp = true ->
  body_arrayBuffer resp = Ok buffer ->
  getSetting rt "ELEVENLABS_OUTPUT_FORMAT" = Some ("pcm_" ++ decimal n) ->
  AudioUtils.getWavHeader (Z.of_nat (List.length buffer))
    (Js.Int (Z.of_N n)) 1 16 = Ok header ->
  exists stream,
    outcome (textToSpeech w rt text k) = Ok stream
    /\ Stream.prependWavHeader (readable_of buffer)
         (Z.of_nat (List.length buffer)) (Js.Int (Z.of_N n)) 1 16
       = Ok stream
    /\ Stream.bytes stream
       = match buffer with
         | [] => []
         | _ => (header ++ buffer)%list
         end.
Proof.
  intros Hv Hf Hok Hb Hformat Hheader.
  rewrite textToSpeech_run, Hv, Hf, Hok, Hb, Hformat.
  assert (Hprefix : Js.startsWith ("pcm_" ++ decimal n) "pcm_" = true).
  { unfold Js.startsWith. cbn [String.append String.prefix].
    repeat match goal with
           | |- context [ascii_dec ?a ?b] =>
               let v := eval cbv in (ascii_dec a b) in
               change (ascii_dec a b) with v; cbv iota
           end.
    apply prefix_empty. }
  assert (Hrest : Js.substring_from 4 ("pcm_" ++ decimal n) = decimal n).
  { unfold Js.substring_from.
    cbn [String.append String.length Nat.sub String.substring].
    rewrite Nat.sub_0_r. apply substring_whole. }
  assert (Hrate : Js.parseInt (decimal n) = Js.Int (Z.of_N n)).
  { rewrite parseInt_decimal. unfold Js.of_integer.
    destruct (getWavHeader_ok _ _ _ _ header Hheader) as [Hvalid _].
    apply valid_rate in Hvalid.
    destruct (Z.leb_spec (Z.abs (Z.of_N n)) (2 ^ 53)); [reflexivity | lia]. }
  rewrite Hprefix, Hrest, Hrate.
  destruct (prependWavHeader_body buffer _ header Hheader)
    as [stream [Hstream Hbytes]].
  exists stream. rewrite Hstream. repeat split. exact Hbytes.
Qed.

Lemma X14_pcm_tag_gives_its_rate_witness :
  exists stream,
    outcome (textToSpeech (Samples.world 200 [])
               (Samples.remote_runtime "pcm_44100") "hello" 0%nat)
    = Ok stream
    /\ Stream.prependWavHeader (readable_of Samples.body) 4
         (Js.Int 44100) 1 16 = Ok stream
    /\ Stream.bytes stream
       = (AudioUtils.layout 4 44100 1 16 ++ Samples.body)%list.
Proof.
  apply (X14_pcm_tag_gives_its_rate (Samples.world 200 [])
           (Samples.remote_runtime "pcm_44100") "hello" 0%nat
           (Samples.response 200) Samples.body 44100%N
           (AudioUtils.layout 4 44100 1 16));
    reflexivity.
Defined.

(* ================================================================== *)
(** ** An encoded buffer from the engine *)
(* ================================================================== *)

(** X15: when the engine answers with an encoded buffer, the local
    adapter returns that buffer as the one chunk of the stream, with
    no header put in front of it and no byte changed; without a key
    this is also what the selector returns, after a single engine
    invocation. *)
Theorem X15_encoded_buffer_passes_through (w : World) (rt : IAgentRuntime)
    (text : string) (k : nat) (b : Buffer) :
  (forall voice, synthesize_at w k text voice = Ok (IsBuffer b)) ->
  outcome (generateVitsAudio w rt text k) = Ok [b]
  /\ Stream.bytes [b] = b
  /\ (Js.truthy (getSetting rt "ELEVENLABS_XI_API_KEY") = false ->
      outcome (generate w rt text k) = Ok [b]
      /\ count is_synthesis (events (generate w rt text k)) = 1%nat).
Proof.
  intros Hengine.
  assert (E : outcome (generateVitsAudio w rt text k) = Ok [b]).
  { unfold generateVitsAudio, processVitsAudio. open_run.
    now rewrite Hengine. }
  split; [exact E|]. split.
  - unfold Stream.bytes. cbn [List.concat]. apply app_nil_r.
  - intros Hkey. rewrite (generate_local_run w rt text k Hkey). cbv zeta.
    rewrite E. cbn [outcome events]. split; [reflexivity|].
    rewrite count_app.
    change (count is_synthesis (Debug ?m :: ?l)) with (count is_synthesis l).
    now destruct (generateVitsAudio_events w rt text k) as [-> _].
Qed.

Lemma X15_encoded_buffer_passes_through_witness :
  outcome (generate (Samples.world 200 []) Samples.local_runtime
             "hello" 0%nat)
  = Ok [[x52; x49]].
Proof.
  destruct (X15_encoded_buffer_passes_through (Samples.world 200 [])
              Samples.local_runtime "hello" 0%nat [x52; x49])
    as [_ [_ Hgenerate]]; [reflexivity|].
  destruct (Hgenerate eq_refl) as [Houtcome _]. exact Houtcome.
Defined.
